(** * go-tilepacks: the retrying fetcher, the mbtiles writer and reader, and the merge tool

    A shallow embedding of
    - [doHTTPWithRetry], [processResults] and the job closure of [main]
      (cmd/build/main.go),
    - [mbtilesOutputter] with [CreateTiles], [AssignMetadata], [Save], [Close]
      (tilepack, the mbtiles outputter),
    - [mbtilesReader] with [GetTile], [VisitAllTiles], [GetZoomRange]
      (tilepack/mbtiles_reader.go),
    - [main] of cmd/merge/main.go,
    - [parseTileFromPath] and [TilesHandler] of cmd/serve,
    together with the properties of these functions. *)

From Stdlib Require Import ZArith NArith List String Bool Lia Permutation.
From Stdlib.Strings Require Import Byte.
From Stdlib Require Import DecimalString Ascii DecimalZ.
Import ListNotations.

Local Open Scope string_scope.
Local Open Scope list_scope.
Local Open Scope Z_scope.

(** ** Machine integers *)

(** Go's [int] and [int64] (and so [time.Duration]): 64 bits, two's complement. *)
Definition wrap_int64 (z : Z) : Z := (z + 2 ^ 63) mod 2 ^ 64 - 2 ^ 63.

(** Go's [uint32] ([maptile.Zoom] and the tile coordinates of [maptile.Tile]). *)
Definition wrap_uint32 (z : Z) : Z := z mod 2 ^ 32.

Definition max_int : Z := 2 ^ 63 - 1.

(** ** Errors *)

Inductive error : Type :=
| ErrNoRows                                 (* sql.ErrNoRows *)
| ErrEngine (msg : string)                  (* the database handle failed the statement *)
| ErrNoSuchTable (table : string)           (* the statement names a table that was never created *)
| ErrUnique (index : string)                (* a plain INSERT hit a unique index *)
| ErrMetadataKey (name : string) (cause : error)
                                            (* fmt.Errorf("Failed to add %s metadata key, %w") *)
| ErrTransport (msg : string)               (* client.Do returned an error *)
| ErrOutOfRetries (url : string)            (* fmt.Errorf("ran out of HTTP GET retries for %s") *)
| PanicDivideByZero                         (* runtime panic: integer divide by zero *)
| PanicNilPointer.                          (* runtime panic: nil pointer dereference *)

(** ** cmd/build: doHTTPWithRetry *)

Module Fetch.

Definition Millisecond : Z := 1000000.
Definition Second : Z := 1000 * Millisecond.

Record Request : Type := mkRequest { URL : string }.

Record Response : Type := mkResponse { StatusCode : Z; Body : list byte }.

(** What one call of [client.Do] gives back. *)
Inductive DoResult : Type :=
| DoErr (e : error)
| DoResp (resp : Response).

(** The client as the function sees it: the answer of the origin to the k-th
    call of [client.Do] on the request (k counts from 0). *)
Definition Client : Type := Request -> nat -> DoResult.

(** What the function does to the outside world, in order. *)
Inductive Event : Type :=
| EvDo (k : nat)
| EvSleep (d : Z).

(** The body of [for i := 0; i < nRetries; i++], with [left] iterations to go. *)
Fixpoint retry_loop (client : Client) (request : Request)
         (left : nat) (i : nat) (sleep : Z)
  : (option Response * option error) * list Event :=
  match left with
  | O => ((None, Some (ErrOutOfRetries (URL request))), [])
  | S left' =>
      match client request i with
      | DoErr err => ((None, Some err), [EvDo i])
      | DoResp resp =>
          if StatusCode resp =? 200 then ((Some resp, None), [EvDo i])
          else if (500 <? StatusCode resp) && (StatusCode resp <? 600) then
            let slept := sleep in
            let sleep := wrap_int64 (sleep * 2) in
            let sleep := if 30 <? sleep then 30 * Second else sleep in
            let '(r, tr) := retry_loop client request left' (S i) sleep in
            (r, EvDo i :: EvSleep slept :: tr)
          else
            let '(r, tr) := retry_loop client request left' (S i) sleep in
            (r, EvDo i :: tr)
      end
  end.

Definition doHTTPWithRetry (client : Client) (request : Request) (nRetries : Z)
  : (option Response * option error) * list Event :=
  retry_loop client request (Z.to_nat nRetries) 0%nat (500 * Millisecond).

(** Observations on a run. *)
Definition attempts (tr : list Event) : nat :=
  List.length (filter (fun e => match e with EvDo _ => true | _ => false end) tr).

Fixpoint waits (tr : list Event) : list Z :=
  match tr with
  | [] => []
  | EvSleep d :: tr' => d :: waits tr'
  | EvDo _ :: tr' => waits tr'
  end.

(** An origin that answers the statuses of [l] in turn, and 200 afterwards. *)
Definition scripted (l : list Z) : Client :=
  fun _ k => DoResp (mkResponse (nth k l 200) []).

(** The schedule of the documentation: 500ms doubled on each attempt, each
    wait capped at 30s. *)
Definition documented_wait (n : nat) : Z :=
  Z.min (500 * Millisecond * 2 ^ Z.of_nat n) (30 * Second).

End Fetch.

(** ** The platform

    What the code takes from Go and its libraries and this development leaves
    open: [orb.Bound] and its float formatting, the MD5 digest, the result of
    a float to [uint32] conversion that does not fit (which Go leaves to the
    implementation), and the order in which [range] walks a map (which Go
    leaves unspecified). *)

Class Platform : Type := {
  Bound : Type;
  zero_bound : Bound;                                (* orb.Bound{} *)
  bound_union : Bound -> Bound -> Bound;             (* Bound.Union *)
  fmt_bounds : Bound -> string;                      (* Sprintf("%f,%f,%f,%f", Min[0], Min[1], Max[0], Max[1]) *)
  fmt_center : Bound -> string;                      (* Sprintf("%f,%f", c[0], c[1]) of bounds.Center() *)
  md5_hex : list byte -> string;                     (* hex.EncodeToString of md5.Sum(data) *)
  pow2_overflow : Z -> Z;                            (* uint32(math.Pow(2.0, z)) when 2^z exceeds uint32 *)
  range_order : list (string * string) -> list (string * string);
  range_order_perm : forall l, Permutation (range_order l) l
}.

(** ** The archive: an SQLite database with the mbtiles schema *)

Record Tile : Type := mkTile { tile_Z : Z; tile_X : Z; tile_Y : Z }.

Record MapRow : Type := mkMapRow {
  zoom_level : Z; tile_column : Z; tile_row : Z; map_tile_id : string }.

Record ImageRow : Type := mkImageRow { tile_data : list byte; tile_id : string }.

Record Tables : Type := mkTables {
  map_table : list MapRow;
  images_table : list ImageRow;
  metadata_table : list (string * string) }.

(** The database behind a [*sql.DB]: whether [CreateTiles]' script has run on
    it, its committed rows, whether the handle fails every statement (and
    with what message), and how many transactions were committed on it. *)
Record DB : Type := mkDB {
  schema : bool;
  tables : Tables;
  fault : option string;
  commits : nat }.

Definition empty_tables : Tables := mkTables [] [] [].

(** The database [sql.Open] makes at a path where no file exists. *)
Definition new_db : DB := mkDB false empty_tables None 0.

(** The two statements [Save] runs inside its transaction. *)
Inductive Stmt : Type :=
| ReplaceImage (id : string) (data : list byte)
    (* INSERT OR REPLACE INTO images (tile_id, tile_data) VALUES (?, ?) *)
| ReplaceMap (z x row : Z) (id : string).
    (* INSERT OR REPLACE INTO map (zoom_level, tile_column, tile_row, tile_id) VALUES (?, ?, ?, ?) *)

Definition same_coordinate (z x row : Z) (r : MapRow) : bool :=
  (zoom_level r =? z) && (tile_column r =? x) && (tile_row r =? row).

(** INSERT OR REPLACE under a unique index: the rows in conflict go, the new
    row comes. *)
Definition apply_stmt (t : Tables) (s : Stmt) : Tables :=
  match s with
  | ReplaceImage id data =>
      mkTables (map_table t)
               (filter (fun r => negb (String.eqb (tile_id r) id)) (images_table t)
                  ++ [mkImageRow data id])
               (metadata_table t)
  | ReplaceMap z x row id =>
      mkTables (filter (fun r => negb (same_coordinate z x row r)) (map_table t)
                  ++ [mkMapRow z x row id])
               (images_table t)
               (metadata_table t)
  end.

(** A statement on the tables of the schema fails when the handle is faulty
    or the tables were never created. *)
Definition statement_error (db : DB) (table : string) : option error :=
  match fault db with
  | Some msg => Some (ErrEngine msg)
  | None => if schema db then None else Some (ErrNoSuchTable table)
  end.

(** [db.Exec] of the script of [CreateTiles]: every CREATE is IF NOT EXISTS. *)
Definition exec_create_script (db : DB) : error + DB :=
  match fault db with
  | Some msg => inl (ErrEngine msg)
  | None => inr (mkDB true (tables db) (fault db) (commits db))
  end.

Definition has_key (name : string) (rows : list (string * string)) : bool :=
  existsb (fun r => String.eqb (fst r) name) rows.

(** [db.Exec("INSERT INTO metadata (name, value) VALUES(?, ?)")] under the
    unique index on [name]. *)
Definition exec_insert_metadata (db : DB) (name value : string) : error + DB :=
  match statement_error db "metadata" with
  | Some e => inl e
  | None =>
      if has_key name (metadata_table (tables db))
      then inl (ErrUnique "metadata.name")
      else inr (mkDB (schema db)
                     (mkTables (map_table (tables db)) (images_table (tables db))
                               (metadata_table (tables db) ++ [(name, value)]))
                     (fault db) (commits db))
  end.

(** A [*sql.Tx]: the statements run in it and not yet committed. *)
Definition Tx : Type := list Stmt.

Definition db_Begin (db : DB) : error + Tx :=
  match fault db with
  | Some msg => inl (ErrEngine msg)
  | None => inr []
  end.

Definition tx_Exec (db : DB) (tx : Tx) (s : Stmt) : error + Tx :=
  match statement_error db (match s with ReplaceImage _ _ => "images" | ReplaceMap _ _ _ _ => "map" end) with
  | Some e => inl e
  | None => inr (tx ++ [s])
  end.

Definition tx_Commit (db : DB) (tx : Tx) : error + DB :=
  match fault db with
  | Some msg => inl (ErrEngine msg)
  | None => inr (mkDB (schema db) (fold_left apply_stmt tx (tables db)) (fault db) (S (commits db)))
  end.

Definition db_Close (db : DB) : option error :=
  match fault db with
  | Some msg => Some (ErrEngine msg)
  | None => None
  end.

(** The view [tiles]: map JOIN images ON images.tile_id = map.tile_id. *)
Record TilesRow : Type := mkTilesRow {
  v_zoom_level : Z; v_tile_column : Z; v_tile_row : Z; v_tile_data : list byte }.

Definition tiles_view (t : Tables) : list TilesRow :=
  flat_map (fun m =>
              List.map (fun i => mkTilesRow (zoom_level m) (tile_column m) (tile_row m) (tile_data i))
                       (filter (fun i => String.eqb (tile_id i) (map_tile_id m)) (images_table t)))
           (map_table t).

(** [QueryRow("SELECT tile_data FROM tiles WHERE zoom_level=? AND tile_column=?
    AND tile_row=? LIMIT 1", z, x, y)] followed by [Scan(&data)]. *)
Definition query_tile_data (db : DB) (z x y : Z) : error + list byte :=
  match statement_error db "tiles" with
  | Some e => inl e
  | None =>
      match filter (fun r => (v_zoom_level r =? z) && (v_tile_column r =? x) && (v_tile_row r =? y))
                   (tiles_view (tables db)) with
      | [] => inl ErrNoRows
      | r :: _ => inr (v_tile_data r)
      end
  end.

(** Row counts, for the statements about duplicates. *)
Definition coordinate_rows (db : DB) (z x row : Z) : nat :=
  List.length (filter (same_coordinate z x row) (map_table (tables db))).

Definition content_rows (db : DB) (id : string) : nat :=
  List.length (filter (fun r => String.eqb (tile_id r) id) (images_table (tables db))).

(** ** tilepack: the mbtiles outputter *)

Section Outputter.
Context `{Platform}.

Record mbtilesOutputter : Type := mkOutputter {
  db : DB;
  txn : option Tx;            (* nil or the open transaction *)
  hasTiles : bool;
  batchCount : Z;
  batchSize : Z;
  bounds : Bound;
  minZoom : Z;
  maxZoom : Z }.

Definition set_db (o : mbtilesOutputter) (d : DB) : mbtilesOutputter :=
  mkOutputter d (txn o) (hasTiles o) (batchCount o) (batchSize o) (bounds o) (minZoom o) (maxZoom o).

Definition set_txn (o : mbtilesOutputter) (t : option Tx) : mbtilesOutputter :=
  mkOutputter (db o) t (hasTiles o) (batchCount o) (batchSize o) (bounds o) (minZoom o) (maxZoom o).

Definition set_hasTiles (o : mbtilesOutputter) (b : bool) : mbtilesOutputter :=
  mkOutputter (db o) (txn o) b (batchCount o) (batchSize o) (bounds o) (minZoom o) (maxZoom o).

Definition set_batchCount (o : mbtilesOutputter) (n : Z) : mbtilesOutputter :=
  mkOutputter (db o) (txn o) (hasTiles o) n (batchSize o) (bounds o) (minZoom o) (maxZoom o).

(** A method on [*mbtilesOutputter] that returns an [error]: it leaves the
    receiver as it is at the return, also when the error is not nil. *)
Definition Method : Type := mbtilesOutputter -> mbtilesOutputter * option error.

Definition and_then (m k : Method) : Method :=
  fun o => match m o with
           | (o', None) => k o'
           | (o', Some e) => (o', Some e)
           end.

Notation "m ;; k" := (and_then m k) (at level 61, right associativity).

(** [NewMbtilesOutputter]: [d] is the database that [sql.Open] finds at the
    dsn. *)
Definition NewMbtilesOutputter (d : DB) (batchSize : Z) (bounds : Bound) (minZoom maxZoom : Z)
  : mbtilesOutputter :=
  mkOutputter d None false 0 batchSize bounds minZoom maxZoom.

Definition CreateTiles : Method :=
  fun o =>
    if hasTiles o then (o, None)
    else match exec_create_script (db o) with
         | inl err => (o, Some err)
         | inr d => (set_hasTiles (set_db o d) true, None)
         end.

(** [strconv.Itoa]. *)
Definition Itoa (z : Z) : string := NilZero.string_of_int (Z.to_int z).

(** The map literal of [AssignMetadata]. *)
Definition metadata_entries (bounds : Bound) (minZoom maxZoom : Z) : list (string * string) :=
  [ ("bounds", fmt_bounds bounds);
    ("center", fmt_center bounds);
    ("minzoom", Itoa minZoom);
    ("maxzoom", Itoa maxZoom) ].

(** The [for name, value := range metadata] loop over the entries still to come. *)
Fixpoint insert_entries (entries : list (string * string)) : Method :=
  fun o =>
    match entries with
    | [] => (o, None)
    | (name, value) :: rest =>
        match exec_insert_metadata (db o) name value with
        | inl err => (o, Some (ErrMetadataKey name err))
        | inr d => insert_entries rest (set_db o d)
        end
    end.

Definition AssignMetadata (bounds : Bound) (minZoom maxZoom : Z) : Method :=
  insert_entries (range_order (metadata_entries bounds minZoom maxZoom)).

(** [if o.txn == nil { tx, err := o.db.Begin(); ...; o.txn = tx }] *)
Definition begin_if_nil : Method :=
  fun o =>
    match txn o with
    | Some _ => (o, None)
    | None => match db_Begin (db o) with
              | inl err => (o, Some err)
              | inr tx => (set_txn o (Some tx), None)
              end
    end.

(** [_, err := o.txn.Exec(...)] *)
Definition txn_Exec (s : Stmt) : Method :=
  fun o =>
    match txn o with
    | None => (o, Some PanicNilPointer)
    | Some tx => match tx_Exec (db o) tx s with
                 | inl err => (o, Some err)
                 | inr tx' => (set_txn o (Some tx'), None)
                 end
    end.

(** [uint32(math.Pow(2.0, float64(z)))] for a [uint32] z. *)
Definition pow2_uint32 (z : Z) : Z :=
  if z <? 32 then 2 ^ z else wrap_uint32 (pow2_overflow z).

(** [invertedY := uint32(math.Pow(2.0, float64(tile.Z))) - 1 - tile.Y] *)
Definition invertedY (tile : Tile) : Z :=
  wrap_uint32 (pow2_uint32 (tile_Z tile) - 1 - tile_Y tile).

(** [o.batchCount++] and the commit of a full batch. *)
Definition count_and_commit : Method :=
  fun o =>
    let o := set_batchCount o (wrap_int64 (batchCount o + 1)) in
    if batchSize o =? 0 then (o, Some PanicDivideByZero)
    else if Z.rem (batchCount o) (batchSize o) =? 0 then
      match txn o with
      | None => (o, Some PanicNilPointer)
      | Some tx => match tx_Commit (db o) tx with
                   | inl err => (o, Some err)
                   | inr d => (set_txn (set_batchCount (set_db o d) 0) None, None)
                   end
      end
    else (o, None).

Definition Save (tile : Tile) (data : list byte) : Method :=
  CreateTiles ;;
  (fun o => AssignMetadata (bounds o) (minZoom o) (maxZoom o) o) ;;
  begin_if_nil ;;
  (let tileID := md5_hex data in
   txn_Exec (ReplaceImage tileID data) ;;
   txn_Exec (ReplaceMap (tile_Z tile) (tile_X tile) (invertedY tile) tileID) ;;
   count_and_commit).

Definition Close : Method :=
  fun o =>
    let '(o, err) :=
      match txn o with
      | Some tx => match tx_Commit (db o) tx with
                   | inl e => (o, Some e)
                   | inr d => (set_db o d, None)
                   end
      | None => (o, None)
      end in
    match db_Close (db o) with
    | Some err2 => (o, Some err2)
    | None => (o, err)
    end.

(** A run of [Save] calls that stops at the first one that does not return nil. *)
Fixpoint SaveAll (saves : list (Tile * list byte)) (o : mbtilesOutputter)
  : option mbtilesOutputter :=
  match saves with
  | [] => Some o
  | (tile, data) :: rest =>
      match Save tile data o with
      | (o', None) => SaveAll rest o'
      | (_, Some _) => None
      end
  end.

(** The state machine of the writer: the counter stays below the batch size,
    and a transaction is open exactly while the counter is positive. *)
Definition batch_invariant (o : mbtilesOutputter) : Prop :=
  0 <= batchCount o < batchSize o /\ (txn o <> None <-> 0 < batchCount o).

End Outputter.

(** ** tilepack: the mbtiles reader *)

Record TileData : Type := mkTileData {
  Tile_ : Tile;
  Data : option (list byte) }.   (* *[]byte: nil or the content *)

Record mbtilesReader : Type := mkReader { reader_db : DB }.

Definition NewMbtilesReaderWithDatabase (d : DB) : mbtilesReader := mkReader d.

Definition GetTile (o : mbtilesReader) (tile : Tile) : option TileData * option error :=
  match query_tile_data (reader_db o) (tile_Z tile) (tile_X tile) (tile_Y tile) with
  | inl ErrNoRows => (Some (mkTileData tile None), None)
  | inl err => (None, Some err)
  | inr data => (Some (mkTileData tile (Some data)), None)
  end.

(** [VisitAllTiles]: the visitor is a closure over the state [S] it changes.
    Only the query can make it return an error: a row that does not scan is
    logged and the loop goes on. *)
Definition VisitAllTiles {S : Type} (o : mbtilesReader)
           (visitor : Tile -> list byte -> S -> S) (s : S) : S * option error :=
  match statement_error (reader_db o) "tiles" with
  | Some err => (s, Some err)
  | None =>
      (fold_left (fun s r => visitor (mkTile (v_zoom_level r) (v_tile_column r) (v_tile_row r))
                                     (v_tile_data r) s)
                 (tiles_view (tables (reader_db o))) s,
       None)
  end.

(** The coordinate is in the archive: the coordinate table has a row for it. *)
Definition coordinate_present (d : DB) (tile : Tile) : Prop :=
  exists r, In r (map_table (tables d))
            /\ same_coordinate (tile_Z tile) (tile_X tile) (tile_Y tile) r = true.

(** ** cmd/merge *)

Section Merge.
Context `{Platform}.

(** What [mbtilesReader.Metadata()] and the accessors of its result give for
    one input archive. They are declared outside the files at hand and are
    taken as given. *)
Record MetadataOf : Type := mkMetadataOf {
  Bounds : error + Bound;
  MinZoom : error + N;       (* uint *)
  MaxZoom : error + N }.     (* uint *)

(** One path of the command line and what is found there. *)
Record Input : Type := mkInput {
  inputFilename : string;
  opened : error + DB;                 (* tilepack.NewMbtilesReader(inputFilename) *)
  Metadata : error + MetadataOf }.

(** The [log.Fatalf] calls of [main]. *)
Inductive Fatal : Type :=
| MustSpecifyOutput
| MustSpecifyInput
| OutputExists (path : string)
| CouldntReadInput (path : string) (e : error)
| NoMetadata (path : string) (e : error)
| NoBounds (path : string) (e : error)
| NoMinZoom (path : string) (e : error)
| NoMaxZoom (path : string) (e : error)
| CouldntCreateOutput (e : error)
| CouldntReadTiles (path : string) (e : error).

(** The variables of the first loop: [outputBounds], [outputMinZoom],
    [outputMaxZoom] and the readers opened so far. *)
Record Aggregate : Type := mkAggregate {
  outputBounds : Bound;
  outputMinZoom : N;
  outputMaxZoom : N;
  inputReaders : list (string * mbtilesReader) }.

Definition initial_aggregate : Aggregate := mkAggregate zero_bound 0%N 0%N [].

(** The body of [for i, inputFilename := range inputFilenames]. *)
Definition read_input (i : nat) (input : Input) (a : Aggregate) : Fatal + Aggregate :=
  match opened input with
  | inl err => inl (CouldntReadInput (inputFilename input) err)
  | inr d =>
      let mbtilesReader := NewMbtilesReaderWithDatabase d in
      match Metadata input with
      | inl err => inl (NoMetadata (inputFilename input) err)
      | inr metadata =>
          match Bounds metadata with
          | inl err => inl (NoBounds (inputFilename input) err)
          | inr bounds =>
              let outputBounds' :=
                if Nat.eqb i 0 then bounds else bound_union (outputBounds a) bounds in
              match MinZoom metadata with
              | inl err => inl (NoMinZoom (inputFilename input) err)
              | inr minZoom =>
                  match MaxZoom metadata with
                  | inl err => inl (NoMaxZoom (inputFilename input) err)
                  | inr maxZoom =>
                      inr (mkAggregate outputBounds'
                                       (N.min (outputMinZoom a) minZoom)
                                       (N.min (outputMaxZoom a) maxZoom)
                                       (inputReaders a ++ [(inputFilename input, mbtilesReader)]))
                  end
              end
          end
      end
  end.

Fixpoint read_inputs (i : nat) (inputs : list Input) (a : Aggregate) : Fatal + Aggregate :=
  match inputs with
  | [] => inr a
  | input :: rest =>
      match read_input i input a with
      | inl f => inl f
      | inr a' => read_inputs (S i) rest a'
      end
  end.

(** The closure handed to [VisitAllTiles]: the result of [Save] is dropped. *)
Definition save_visitor (t : Tile) (data : list byte) (o : mbtilesOutputter) : mbtilesOutputter :=
  fst (Save t data o).

(** [for i, mbtilesReader := range inputReaders]. *)
Fixpoint copy_inputs (readers : list (string * mbtilesReader)) (o : mbtilesOutputter)
  : Fatal + mbtilesOutputter :=
  match readers with
  | [] => inr o
  | (name, reader) :: rest =>
      match VisitAllTiles reader save_visitor o with
      | (_, Some err) => inl (CouldntReadTiles name err)
      | (o', None) => copy_inputs rest o'
      end
  end.

(** [maptile.Zoom(z)] of a [uint]. *)
Definition to_Zoom (z : N) : Z := wrap_uint32 (Z.of_N z).

(** [main]: either one of the fatal exits, or the archive left at the output
    path when it returns. The results of [mbtilesReader.Close()] and of
    [outputMbtiles.Close()] are not looked at. *)
Definition main (outputFilename : string) (inputs : list Input) (pathExists : bool)
  : Fatal + DB :=
  if String.eqb outputFilename "" then inl MustSpecifyOutput
  else if Nat.eqb (List.length inputs) 0 then inl MustSpecifyInput
  else if pathExists then inl (OutputExists outputFilename)
  else
    match read_inputs 0 inputs initial_aggregate with
    | inl f => inl f
    | inr a =>
        let outputMbtiles :=
          NewMbtilesOutputter new_db 1000 (outputBounds a)
                              (to_Zoom (outputMinZoom a)) (to_Zoom (outputMaxZoom a)) in
        match CreateTiles outputMbtiles with
        | (_, Some err) => inl (CouldntCreateOutput err)
        | (outputMbtiles, None) =>
            match copy_inputs (inputReaders a) outputMbtiles with
            | inl f => inl f
            | inr outputMbtiles => inr (db (fst (Close outputMbtiles)))
            end
        end
    end.

(** The zoom range the destination is created with. *)
Definition merged_zoom_range (inputs : list Input) : option (Z * Z) :=
  match read_inputs 0 inputs initial_aggregate with
  | inl _ => None
  | inr a => Some (to_Zoom (outputMinZoom a), to_Zoom (outputMaxZoom a))
  end.

End Merge.

(** ** A concrete platform, to run the definitions on examples

    Bounds are whole degrees (west, south, east, north); the digest is the
    content itself, one letter per byte, which never collides. *)

Definition sample_bound : Type := Z * Z * Z * Z.

Definition sample_union (a b : sample_bound) : sample_bound :=
  let '(w1, s1, e1, n1) := a in
  let '(w2, s2, e2, n2) := b in
  (Z.min w1 w2, Z.min s1 s2, Z.max e1 e2, Z.max n1 n2).

Definition sample_fmt_bounds (b : sample_bound) : string :=
  let '(w, s, e, n) := b in
  (Itoa w ++ "," ++ Itoa s ++ "," ++ Itoa e ++ "," ++ Itoa n)%string.

Definition sample_fmt_center (b : sample_bound) : string :=
  let '(w, s, e, n) := b in
  (Itoa ((w + e) / 2) ++ "," ++ Itoa ((s + n) / 2))%string.

#[local] Instance sample_platform : Platform := {|
  Bound := sample_bound;
  zero_bound := (0, 0, 0, 0);
  bound_union := sample_union;
  fmt_bounds := sample_fmt_bounds;
  fmt_center := sample_fmt_center;
  md5_hex := string_of_list_byte;
  pow2_overflow := fun _ => 0;
  range_order := fun l => l;
  range_order_perm := fun l => Permutation_refl l |}.

Definition world : sample_bound := (-180, -90, 180, 90).

(** A fresh writer on a path where no file exists, with batches of 1000. *)
Definition sample_outputter : mbtilesOutputter :=
  NewMbtilesOutputter new_db 1000 world 0 1.

Definition content_a : list byte := [x61].
Definition content_b : list byte := [x62].

(** An archive that holds two tiles, as a source of a merge. *)
Definition two_tile_archive : DB :=
  mkDB true
       (mkTables [mkMapRow 3 0 0 "a"; mkMapRow 5 1 0 "b"]
                 [mkImageRow content_a "a"; mkImageRow content_b "b"]
                 [("bounds", "-180,-90,180,90"); ("center", "0,0"); ("minzoom", "3"); ("maxzoom", "5")])
       None 1.

Definition two_tile_input : Input :=
  mkInput "in.mbtiles" (inr two_tile_archive)
          (inr (mkMetadataOf (inr world) (inr 3%N) (inr 5%N))).

Definition tile_1_0_0 : Tile := mkTile 1 0 0.

(** The fresh writer after one [Save], and after the [Close] that follows. *)
Definition after_one_save : mbtilesOutputter :=
  fst (Save tile_1_0_0 content_a sample_outputter).

Definition closed_after_one_save : mbtilesOutputter := fst (Close after_one_save).

(** A writer in the middle of a batch of two, on an archive whose metadata
    table is still empty. *)
Definition sample_mid_batch : mbtilesOutputter :=
  mkOutputter (mkDB true empty_tables None 0) (Some []) true 1 2 world 0 1.

(** A second source of a merge, whose metadata reports the zoom range 2..7. *)
Definition other_input : Input :=
  mkInput "other.mbtiles" (inr (mkDB true empty_tables None 0))
          (inr (mkMetadataOf (inr (0, 0, 10, 10)) (inr 2%N) (inr 7%N))).

(** The destination of a merge of [two_tile_input] as [main] sets it up, and
    after the visitor has saved the first tile of the source. *)
Definition merge_destination : mbtilesOutputter :=
  fst (CreateTiles (NewMbtilesOutputter new_db 1000 world 0 0)).

Definition merge_after_first_tile : mbtilesOutputter :=
  save_visitor (mkTile 3 0 0) content_a merge_destination.

(** ** Notions used in the statements *)

(** A reading of the retry policy: a first answer that is neither 200 nor
    5xx ends the fetch after that one attempt. *)
Definition non_5xx_is_terminal : Prop :=
  forall (client : Fetch.Client) (request : Fetch.Request) (nRetries : Z) resp,
    1 <= nRetries ->
    client request 0%nat = Fetch.DoResp resp ->
    Fetch.StatusCode resp <> 200 ->
    ~ (500 <= Fetch.StatusCode resp < 600) ->
    Fetch.attempts (snd (Fetch.doHTTPWithRetry client request nRetries)) = 1%nat.

Section Frames.
Context `{Platform}.

(** The fields set by [NewMbtilesOutputter] and never written again. *)
Definition same_settings (o o' : mbtilesOutputter) : Prop :=
  batchSize o' = batchSize o /\ bounds o' = bounds o
  /\ minZoom o' = minZoom o /\ maxZoom o' = maxZoom o.

(** The transaction, the counter and the number of commits are untouched. *)
Definition same_batch (o o' : mbtilesOutputter) : Prop :=
  txn o' = txn o /\ batchCount o' = batchCount o /\ commits (db o') = commits (db o).

(** The rows of the coordinate and content tables, and the health of the
    handle, are untouched. *)
Definition same_tiles (d d' : DB) : Prop :=
  map_table (tables d') = map_table (tables d)
  /\ images_table (tables d') = images_table (tables d)
  /\ fault d' = fault d.

(** What the archive holds once the open transaction, if any, is committed. *)
Definition pending_tables (o : mbtilesOutputter) : Tables :=
  fold_left apply_stmt (match txn o with Some tx => tx | None => [] end) (tables (db o)).

End Frames.

(** ** tilepack: the zoom range of the reader *)

Record ZoomRange : Type := mkZoomRange { Min : Z; Max : Z }.

(** SQL's MIN and MAX of a column: NULL when there is no row. *)
Definition sql_min (l : list Z) : option Z :=
  match l with
  | [] => None
  | z :: rest => Some (fold_left Z.min rest z)
  end.

Definition sql_max (l : list Z) : option Z :=
  match l with
  | [] => None
  | z :: rest => Some (fold_left Z.max rest z)
  end.

(** What [row.Scan(&z)] returns for an [int] z when the column is NULL. *)
Definition scan_null_into_int : error :=
  ErrEngine "converting NULL to int is unsupported".

(** [QueryRow(q)] then [Scan(&z)] for one of the two aggregate queries. *)
Definition scan_aggregate (d : DB) (agg : list Z -> option Z) : Z * option error :=
  match statement_error d "tiles" with
  | Some err => (0, Some err)
  | None =>
      match agg (List.map v_zoom_level (tiles_view (tables d))) with
      | None => (0, Some scan_null_into_int)
      | Some z => (z, None)
      end
  end.

(** [SELECT MIN(zoom_level) FROM tiles] *)
Definition getMinZoom (o : mbtilesReader) : Z * option error :=
  scan_aggregate (reader_db o) sql_min.

(** [SELECT MAX(zoom_level) FROM tiles] *)
Definition getMaxZoom (o : mbtilesReader) : Z * option error :=
  scan_aggregate (reader_db o) sql_max.

Definition GetZoomRange (o : mbtilesReader) : option ZoomRange * option error :=
  match getMinZoom o with
  | (_, Some err) => (None, Some err)
  | (min, None) =>
      match getMaxZoom o with
      | (_, Some err) => (None, Some err)
      | (max, None) => (Some (mkZoomRange min max), None)
      end
  end.

(** A visitor that writes down what it is shown, in order. *)
Definition note_tile (t : Tile) (data : list byte) (seen : list (Tile * list byte))
  : list (Tile * list byte) :=
  seen ++ [(t, data)].

(** ** cmd/build: processResults *)

Section ProcessResults.
Context `{Platform}.

(** A [TileResponse]; its [Elapsed], a float64 that [processResults] does not
    read, is left out. *)
Record TileResponse : Type := mkTileResponse {
  Tile_of : Tile;
  Data_of : list byte }.

Definition saveLogInterval : Z := 10000.

(** The lines [processResults] logs. The rate in the progress line is a
    float and is left out. *)
Inductive LogLine : Type :=
| CouldntSaveTile (e : error)       (* "Couldn't save tile %+v" *)
| SavedThousands (k : Z)            (* "Saved %dk tiles (...)" with counter/1000 *)
| SavedTiles (counter : Z)          (* "Saved %d tiles" *)
| ErrorClosingProcessor (e : error). (* "Error closing processor: %+v" *)

Definition is_panic (e : error) : bool :=
  match e with
  | PanicDivideByZero | PanicNilPointer => true
  | _ => false
  end.

(** [for result := range results], on the results the channel delivers, in
    order. A panic inside [Save] ends the function (left); otherwise the
    processor, the counter and the lines logged come back. *)
Fixpoint save_results (results : list TileResponse) (processor : mbtilesOutputter)
         (counter : Z) : error + (mbtilesOutputter * Z * list LogLine) :=
  match results with
  | [] => inr (processor, counter, [])
  | result :: rest =>
      let '(processor, err) := Save (Tile_of result) (Data_of result) processor in
      let complaint :=
        match err with
        | Some e => if is_panic e then inl e else inr [CouldntSaveTile e]
        | None => inr []
        end in
      match complaint with
      | inl p => inl p
      | inr lines =>
          let counter := wrap_int64 (counter + 1) in
          let progress :=
            if Z.rem counter saveLogInterval =? 0
            then [SavedThousands (Z.quot counter 1000)]
            else [] in
          match save_results rest processor counter with
          | inl p => inl p
          | inr (processor, counter, more) =>
              inr (processor, counter, lines ++ progress ++ more)
          end
      end
  end.

(** [processResults] with the mbtiles outputter as its processor. *)
Definition processResults (results : list TileResponse) (processor : mbtilesOutputter)
  : error + (mbtilesOutputter * list LogLine) :=
  match save_results results processor 0 with
  | inl p => inl p
  | inr (processor, counter, lines) =>
      let '(processor, err) := Close processor in
      inr (processor,
           lines ++ [SavedTiles counter]
                 ++ match err with
                    | Some e => [ErrorClosingProcessor e]
                    | None => []
                    end)
  end.

Definition is_CouldntSaveTile (l : LogLine) : bool :=
  match l with
  | CouldntSaveTile _ => true
  | _ => false
  end.

End ProcessResults.

(** ** cmd/merge: what the inputs amount to *)

Section MergeNotions.
Context `{Platform}.

(** The bounds the first loop of [main] gets from an input, when the input
    opens and its metadata give bounds and both zooms. *)
Definition input_bounds (input : Input) : option Bound :=
  match opened input, Metadata input with
  | inr _, inr metadata =>
      match Bounds metadata, MinZoom metadata, MaxZoom metadata with
      | inr b, inr _, inr _ => Some b
      | _, _, _ => None
      end
  | _, _ => None
  end.

Definition bounds_or_zero (input : Input) : Bound :=
  match input_bounds input with
  | Some b => b
  | None => zero_bound
  end.

(** The database behind an input that opens. *)
Definition input_database (input : Input) : DB :=
  match opened input with
  | inr d => d
  | inl _ => new_db
  end.

Definition input_reader (input : Input) : string * mbtilesReader :=
  (inputFilename input, NewMbtilesReaderWithDatabase (input_database input)).

(** An input that lets [main] through: it opens, its metadata give bounds
    and both zooms, and its database answers the query of [VisitAllTiles]. *)
Definition input_ok (input : Input) : Prop :=
  input_bounds input <> None
  /\ statement_error (input_database input) "tiles" = None.

(** The union of bounds, the first one first. *)
Definition union_of (bs : list Bound) : Bound :=
  match bs with
  | [] => zero_bound
  | b :: rest => fold_left bound_union rest b
  end.


(** The path a fatal exit of [main] names, if it names one. *)
Definition fatal_path (f : Fatal) : option string :=
  match f with
  | CouldntReadInput p _ | NoMetadata p _ | NoBounds p _ | NoMinZoom p _
  | NoMaxZoom p _ | CouldntReadTiles p _ => Some p
  | MustSpecifyOutput | MustSpecifyInput | OutputExists _ | CouldntCreateOutput _ => None
  end.

(** The visitor of [main] on one row of the view. *)
Definition visit_row (o : mbtilesOutputter) (r : TilesRow) : mbtilesOutputter :=
  save_visitor (mkTile (v_zoom_level r) (v_tile_column r) (v_tile_row r)) (v_tile_data r) o.


End MergeNotions.

(** A source of a merge whose file cannot be opened. *)
Definition broken_input : Input :=
  mkInput "broken.mbtiles" (inl (ErrEngine "unable to open database file"))
          (inl (ErrEngine "unable to open database file")).

(** ** cmd/serve: parseTileFromPath and the tiles handler *)

Module Serve.

Definition tilezen_prefix : string := "/tilezen/vector/v1/512/all/".

(** [\d] of the regular expression: an ASCII digit. *)
Definition is_digit (c : ascii) : bool :=
  (48 <=? nat_of_ascii c)%nat && (nat_of_ascii c <=? 57)%nat.

(** The longest run of digits at the head of a string, and what follows. *)
Fixpoint span_digits (s : string) : string * string :=
  match s with
  | EmptyString => (EmptyString, EmptyString)
  | String c s' =>
      if is_digit c
      then let '(ds, rest) := span_digits s' in (String c ds, rest)
      else (EmptyString, s)
  end.

Fixpoint strip_prefix (p s : string) : option string :=
  match p with
  | EmptyString => Some s
  | String a p' =>
      match s with
      | EmptyString => None
      | String b s' => if Ascii.eqb a b then strip_prefix p' s' else None
      end
  end.

(** One [(\d+)] group followed by the text [sep]. *)
Definition digits_then (sep : string) (s : string) : option (string * string) :=
  let '(ds, rest) := span_digits s in
  match ds with
  | EmptyString => None
  | _ => match strip_prefix sep rest with
         | Some rest' => Some (ds, rest')
         | None => None
         end
  end.

(** [tilezenRegex.FindStringSubmatch(url)], for
    [^\/tilezen\/vector\/v1\/512\/all\/(\d+)\/(\d+)\/(\d+)\.mvt$]: the three
    groups, or nil. *)
Definition FindStringSubmatch (url : string) : option (string * string * string) :=
  match strip_prefix tilezen_prefix url with
  | None => None
  | Some s1 =>
      match digits_then "/" s1 with
      | None => None
      | Some (z, s2) =>
          match digits_then "/" s2 with
          | None => None
          | Some (x, s3) =>
              match digits_then ".mvt" s3 with
              | Some (y, EmptyString) => Some (z, x, y)
              | _ => None
              end
          end
      end
  end.

(** [v, _ := strconv.ParseUint(s, 10, 32)] for a run of digits [s]: the value,
    or the largest uint32 when the value does not fit (the range error is
    dropped). *)
Definition ParseUint32 (s : string) : Z :=
  match NilEmpty.uint_of_string s with
  | Some u => if Z.of_uint u <? 2 ^ 32 then Z.of_uint u else 2 ^ 32 - 1
  | None => 0
  end.

(** [parseTileFromPath]: the tile, or nil with the error "invalid tile path". *)
Definition parseTileFromPath (url : string) : option Tile :=
  match FindStringSubmatch url with
  | None => None
  | Some (z, x, y) => Some (mkTile (ParseUint32 z) (ParseUint32 x) (ParseUint32 y))
  end.

(** [strings.Contains]. *)
Definition Contains (s substr : string) : bool :=
  match String.index 0 substr s with
  | Some _ => true
  | None => false
  end.

(** What the handler is given of the request, and what it answers. *)
Record HTTPRequest : Type := mkHTTPRequest {
  Path : string;
  AcceptEncoding : string }.       (* r.Header.Get("Accept-Encoding") *)

Inductive HTTPResponse : Type :=
| NotFound                                          (* http.NotFound(w, r) *)
| Written (contentEncoding : option string) (contentType : string) (body : list byte)
| NilDereference.                                   (* panic on [result.Data] of a nil result *)

Inductive HandlerLog : Type :=
| ErrorGettingTile (e : error)
| RequesterDoesntAcceptGzip.

(** The function [TilesHandler] returns. *)
Definition TilesHandler (mbtiles : mbtilesReader) (r : HTTPRequest)
  : HTTPResponse * list HandlerLog :=
  match parseTileFromPath (Path r) with
  | None => (NotFound, [])
  | Some requestedTile =>
      match GetTile mbtiles requestedTile with
      | (_, Some err) => (NotFound, [ErrorGettingTile err])
      | (None, None) => (NilDereference, [])
      | (Some result, None) =>
          match Data result with
          | None => (NotFound, [])
          | Some data =>
              if Contains (AcceptEncoding r) "gzip"
              then (Written (Some "gzip") "application/x-protobuf" data, [])
              else (Written None "application/x-protobuf" data, [RequesterDoesntAcceptGzip])
          end
      end
  end.

(** A run of one or more digits. *)
Fixpoint digits_only (s : string) : bool :=
  match s with
  | EmptyString => true
  | String c s' => is_digit c && digits_only s'
  end.

Definition is_number (s : string) : bool :=
  negb (String.eqb s "") && digits_only s.

(** The path under which the handler is asked for a tile. *)
Definition tile_path (z x y : Z) : string :=
  (tilezen_prefix ++ Itoa z ++ "/" ++ Itoa x ++ "/" ++ Itoa y ++ ".mvt")%string.

End Serve.

(** The type of tiles, under a name that record fields do not take. *)
Definition TileT : Type := Tile.

(** ** cmd/build: the job made for a tile *)

Module Build.

Record TileRequest : Type := mkTileRequest {
  Tile : Tile;
  URL : string;
  Gzip : bool }.

(** [strings.NewReplacer("{x}", x, "{y}", y, "{z}", z).Replace(s)]: from left
    to right, a placeholder is replaced and the scan goes on after it; any
    other character is copied. *)
Fixpoint Replace (x y z : string) (s : string) : string :=
  match s with
  | EmptyString => EmptyString
  | String a s1 =>
      let keep := String a (Replace x y z s1) in
      if Ascii.eqb a "{" then
        match s1 with
        | String c (String b rest) =>
            if Ascii.eqb b "}" then
              if Ascii.eqb c "x" then (x ++ Replace x y z rest)%string
              else if Ascii.eqb c "y" then (y ++ Replace x y z rest)%string
              else if Ascii.eqb c "z" then (z ++ Replace x y z rest)%string
              else keep
            else keep
        | _ => keep
        end
      else keep
  end.

(** The closure [consumer] of [main], up to the send on the job queue:
    [fmt.Sprintf("%d", ...)] of the three unsigned coordinates, put into the
    URL template. *)
Definition consumer (urlTemplateStr : string) (gzipEnabled : bool) (tile : TileT)
  : TileRequest :=
  mkTileRequest tile
                (Replace (Itoa (tile_X tile)) (Itoa (tile_Y tile)) (Itoa (tile_Z tile))
                         urlTemplateStr)
                gzipEnabled.

(** A text without an opening brace. *)
Fixpoint no_brace (s : string) : bool :=
  match s with
  | EmptyString => true
  | String a s' => negb (Ascii.eqb a "{") && no_brace s'
  end.

End Build.

(** * Properties *)

(** ** doHTTPWithRetry *)

Section FetchFacts.
Import Fetch.
Variables (client : Client) (request : Request).

(** Whatever the loop returns without an error is a response with status 200. *)
Lemma retry_loop_success (left : nat) :
  forall i sleep resp tr,
    retry_loop client request left i sleep = ((resp, None), tr) ->
    exists r, resp = Some r /\ StatusCode r = 200.
Proof.
  induction left as [|left IH]; intros i sleep resp tr; simpl.
  - discriminate.
  - destruct (client request i) as [e|r]; [discriminate|].
    destruct (StatusCode r =? 200) eqn:E200.
    + intros Heq. inversion Heq; subst. exists r. split; [reflexivity|]. now apply Z.eqb_eq.
    + destruct ((500 <? StatusCode r) && (StatusCode r <? 600)).
      * destruct (retry_loop client request left (S i) _) as [[resp' err'] tr'] eqn:Hrec.
        intros Heq. inversion Heq; subst. eapply IH; eassumption.
      * destruct (retry_loop client request left (S i) sleep) as [[resp' err'] tr'] eqn:Hrec.
        intros Heq. inversion Heq; subst. eapply IH; eassumption.
Qed.

(** As long as the answers are not 200, the loop uses all its iterations. *)
Lemma retry_loop_all_non_200 (left : nat) :
  forall i sleep,
    (forall k, (i <= k < i + left)%nat ->
               exists resp, client request k = DoResp resp /\ StatusCode resp <> 200) ->
    exists tr,
      retry_loop client request left i sleep
      = ((None, Some (ErrOutOfRetries (URL request))), tr)
      /\ attempts tr = left.
Proof.
  induction left as [|left IH]; intros i sleep Hall; simpl.
  - exists []. split; reflexivity.
  - destruct (Hall i) as [r [Hr Hne]]; [lia|]. rewrite Hr.
    apply Z.eqb_neq in Hne. rewrite Hne.
    destruct ((500 <? StatusCode r) && (StatusCode r <? 600)).
    + match goal with |- context [retry_loop client request left (S i) ?s] =>
        destruct (IH (S i) s) as [tr [Heq Hn]] end.
      { intros k Hk. apply Hall. lia. }
      rewrite Heq. eexists. split; [reflexivity|]. unfold attempts in *. simpl. now rewrite Hn.
    + destruct (IH (S i) sleep) as [tr [Heq Hn]].
      { intros k Hk. apply Hall. lia. }
      rewrite Heq. eexists. split; [reflexivity|]. unfold attempts in *. simpl. now rewrite Hn.
Qed.

(** One turn of the loop. *)
Lemma retry_loop_unfold (left : nat) (i : nat) (sleep : Z) :
  retry_loop client request (S left) i sleep
  = match client request i with
    | DoErr err => ((None, Some err), [EvDo i])
    | DoResp resp =>
        if StatusCode resp =? 200 then ((Some resp, None), [EvDo i])
        else if (500 <? StatusCode resp) && (StatusCode resp <? 600) then
          let '(r, tr) :=
            retry_loop client request left (S i)
                       (if 30 <? wrap_int64 (sleep * 2) then 30 * Second else wrap_int64 (sleep * 2)) in
          (r, EvDo i :: EvSleep sleep :: tr)
        else
          let '(r, tr) := retry_loop client request left (S i) sleep in
          (r, EvDo i :: tr)
    end.
Proof. reflexivity. Qed.

(** Every iteration that is entered calls [client.Do] first. *)
Lemma retry_loop_first_event (left : nat) (i : nat) (sleep : Z) :
  exists tr', snd (retry_loop client request (S left) i sleep) = EvDo i :: tr'.
Proof.
  simpl. destruct (client request i) as [e|r]; [eexists; reflexivity|].
  destruct (StatusCode r =? 200); [eexists; reflexivity|].
  destruct ((500 <? StatusCode r) && (StatusCode r <? 600)).
  - destruct (retry_loop client request left (S i) _) as [res tr]. eexists; reflexivity.
  - destruct (retry_loop client request left (S i) sleep) as [res tr]. eexists; reflexivity.
Qed.

End FetchFacts.

(** C9. If [doHTTPWithRetry] returns a nil error, the response it returns has
    status code 200; and when [nRetries <= 0] it returns the out-of-retries
    error and no response, without a single call of [client.Do]. *)
Theorem doHTTPWithRetry_nil_error_is_200 :
  forall (client : Fetch.Client) (request : Fetch.Request) (nRetries : Z) resp err tr,
    Fetch.doHTTPWithRetry client request nRetries = ((resp, err), tr) ->
    (err = None -> exists r, resp = Some r /\ Fetch.StatusCode r = 200)
    /\ (nRetries <= 0 ->
        resp = None /\ err = Some (ErrOutOfRetries (Fetch.URL request)) /\ tr = []).
Proof.
  intros client request nRetries resp err tr Hrun. split.
  - intros ->. unfold Fetch.doHTTPWithRetry in Hrun.
    eapply retry_loop_success; eassumption.
  - intros Hle. unfold Fetch.doHTTPWithRetry in Hrun.
    replace (Z.to_nat nRetries) with 0%nat in Hrun by lia.
    simpl in Hrun. inversion Hrun; subst. repeat split.
Qed.

Lemma doHTTPWithRetry_nil_error_is_200_witness :
  (exists r, Some (Fetch.mkResponse 200 []) = Some r /\ Fetch.StatusCode r = 200)
  /\ (@None Fetch.Response = None
      /\ Some (ErrOutOfRetries "u") = Some (ErrOutOfRetries (Fetch.URL (Fetch.mkRequest "u")))
      /\ @nil Fetch.Event = []).
Proof.
  split.
  - apply (proj1 (doHTTPWithRetry_nil_error_is_200
                    (Fetch.scripted [503]) (Fetch.mkRequest "u") 30
                    (Some (Fetch.mkResponse 200 [])) None
                    [Fetch.EvDo 0; Fetch.EvSleep 500000000; Fetch.EvDo 1]
                    eq_refl)
                 eq_refl).
  - apply (proj2 (doHTTPWithRetry_nil_error_is_200
                    (Fetch.scripted []) (Fetch.mkRequest "u") 0
                    None (Some (ErrOutOfRetries "u")) []
                    eq_refl)).
    lia.
Defined.

(** C3, as stated, fails: an origin that answers 404 is asked 30 times when
    the budget is 30, with no wait in between. *)
Lemma not_found_is_retried :
  Fetch.attempts (snd (Fetch.doHTTPWithRetry (Fetch.scripted (repeat 404 30)) (Fetch.mkRequest "u") 30))
  = 30%nat
  /\ Fetch.waits (snd (Fetch.doHTTPWithRetry (Fetch.scripted (repeat 404 30)) (Fetch.mkRequest "u") 30))
     = []
  /\ ~ non_5xx_is_terminal.
Proof.
  split; [vm_compute; reflexivity|]. split; [vm_compute; reflexivity|].
  intros Hclaim.
  specialize (Hclaim (Fetch.scripted (repeat 404 30)) (Fetch.mkRequest "u") 30
                     (Fetch.mkResponse 404 [])).
  assert (Hn : Fetch.attempts
                 (snd (Fetch.doHTTPWithRetry (Fetch.scripted (repeat 404 30)) (Fetch.mkRequest "u") 30))
               = 30%nat) by (vm_compute; reflexivity).
  rewrite Hn in Hclaim.
  assert (30%nat = 1%nat) as Habs; [|discriminate Habs].
  apply Hclaim.
  - lia.
  - reflexivity.
  - simpl. lia.
  - simpl. lia.
Qed.

(** C3, amended. A first answer with any status other than 200 is followed by
    a second call of [client.Do] whenever the budget allows one, and when the
    status is not a 5xx that second call comes with no wait before it; when
    every answer within the budget is other than 200, exactly [nRetries] calls
    are made and the out-of-retries error is returned. *)
Theorem doHTTPWithRetry_retries_any_non_200 :
  forall (client : Fetch.Client) (request : Fetch.Request) (nRetries : Z) resp,
    2 <= nRetries ->
    client request 0%nat = Fetch.DoResp resp ->
    Fetch.StatusCode resp <> 200 ->
    (exists tr', snd (Fetch.doHTTPWithRetry client request nRetries) = Fetch.EvDo 0 :: tr'
                 /\ In (Fetch.EvDo 1) tr')
    /\ (~ (500 <= Fetch.StatusCode resp < 600) ->
        exists tr', snd (Fetch.doHTTPWithRetry client request nRetries)
                    = Fetch.EvDo 0 :: Fetch.EvDo 1 :: tr')
    /\ ((forall k, (k < Z.to_nat nRetries)%nat ->
                   exists r, client request k = Fetch.DoResp r /\ Fetch.StatusCode r <> 200) ->
        exists tr, Fetch.doHTTPWithRetry client request nRetries
                   = ((None, Some (ErrOutOfRetries (Fetch.URL request))), tr)
                   /\ Fetch.attempts tr = Z.to_nat nRetries).
Proof.
  intros client request nRetries resp Hn H0 Hne.
  unfold Fetch.doHTTPWithRetry.
  destruct (Z.to_nat nRetries) as [|[|left]] eqn:En; [lia|lia|].
  apply Z.eqb_neq in Hne.
  split; [|split].
  - rewrite retry_loop_unfold, H0, Hne.
    destruct ((500 <? Fetch.StatusCode resp) && (Fetch.StatusCode resp <? 600)).
    + match goal with |- context [Fetch.retry_loop client request (S left) 1 ?s] =>
        destruct (retry_loop_first_event client request left 1 s) as [tr' Htr];
        destruct (Fetch.retry_loop client request (S left) 1 s) as [res tr] end.
      simpl in Htr. subst tr. eexists. split; [reflexivity|]. simpl. auto.
    + destruct (retry_loop_first_event client request left 1 (500 * Fetch.Millisecond)) as [tr' Htr].
      destruct (Fetch.retry_loop client request (S left) 1 (500 * Fetch.Millisecond)) as [res tr].
      simpl in Htr. subst tr. eexists. split; [reflexivity|]. simpl. auto.
  - intros Hnot. rewrite retry_loop_unfold, H0, Hne.
    replace ((500 <? Fetch.StatusCode resp) && (Fetch.StatusCode resp <? 600)) with false.
    + destruct (retry_loop_first_event client request left 1 (500 * Fetch.Millisecond)) as [tr' Htr].
      destruct (Fetch.retry_loop client request (S left) 1 (500 * Fetch.Millisecond)) as [res tr].
      simpl in Htr. subst tr. eexists. reflexivity.
    + symmetry. apply andb_false_iff.
      destruct (Z.ltb_spec 500 (Fetch.StatusCode resp)); [right|left; reflexivity].
      apply Z.ltb_ge. lia.
  - intros Hall. apply retry_loop_all_non_200. intros k Hk. apply Hall. lia.
Qed.

Lemma doHTTPWithRetry_retries_any_non_200_witness :
  (exists tr', snd (Fetch.doHTTPWithRetry (Fetch.scripted [404; 404; 404]) (Fetch.mkRequest "u") 3)
               = Fetch.EvDo 0 :: tr'
               /\ In (Fetch.EvDo 1) tr')
  /\ (exists tr', snd (Fetch.doHTTPWithRetry (Fetch.scripted [404; 404; 404]) (Fetch.mkRequest "u") 3)
                  = Fetch.EvDo 0 :: Fetch.EvDo 1 :: tr')
  /\ (exists tr, Fetch.doHTTPWithRetry (Fetch.scripted [404; 404; 404]) (Fetch.mkRequest "u") 3
                 = ((None, Some (ErrOutOfRetries "u")), tr)
                 /\ Fetch.attempts tr = 3%nat).
Proof.
  assert (Hbudget : 2 <= 3) by lia.
  assert (Hstatus : Fetch.StatusCode (Fetch.mkResponse 404 []) <> 200) by (simpl; lia).
  destruct (doHTTPWithRetry_retries_any_non_200
              (Fetch.scripted [404; 404; 404]) (Fetch.mkRequest "u") 3
              (Fetch.mkResponse 404 []) Hbudget eq_refl Hstatus) as (Hsecond & Hnowait & Hall).
  split; [exact Hsecond|]. split.
  - apply Hnowait. simpl. lia.
  - apply Hall. intros k Hk.
    destruct k as [|[|[|k]]]; simpl in Hk; try lia;
      (eexists; split; [reflexivity|simpl; lia]).
Defined.

(** Once a wait has been made, the next one is 30 seconds: the doubled wait is
    compared with 30 nanoseconds. *)
Lemma wait_after_first_is_30s (sleep : Z) :
  16 <= sleep <= 30 * Fetch.Second ->
  (if 30 <? wrap_int64 (sleep * 2) then 30 * Fetch.Second else wrap_int64 (sleep * 2))
  = 30 * Fetch.Second.
Proof.
  intros Hs. unfold wrap_int64, Fetch.Second, Fetch.Millisecond in *.
  rewrite Z.mod_small by lia.
  destruct (Z.ltb_spec 30 (sleep * 2 + 2 ^ 63 - 2 ^ 63)); [reflexivity|lia].
Qed.

(** Against an origin that keeps answering a status above 500 and below 600,
    the waits are the first one followed by 30 seconds each time. *)
Lemma retry_loop_waits_on_5xx (client : Fetch.Client) (request : Fetch.Request) (left : nat) :
  forall i sleep,
    16 <= sleep <= 30 * Fetch.Second ->
    (forall k, (i <= k < i + left)%nat ->
               exists resp, client request k = Fetch.DoResp resp
                            /\ 500 < Fetch.StatusCode resp < 600) ->
    Fetch.waits (snd (Fetch.retry_loop client request left i sleep))
    = match left with
      | O => []
      | S left' => sleep :: repeat (30 * Fetch.Second) left'
      end.
Proof.
  induction left as [|left IH]; intros i sleep Hs Hall; [reflexivity|].
  rewrite retry_loop_unfold.
  destruct (Hall i) as [r [Hr Hrange]]; [lia|]. rewrite Hr.
  replace (Fetch.StatusCode r =? 200) with false by (symmetry; apply Z.eqb_neq; lia).
  replace ((500 <? Fetch.StatusCode r) && (Fetch.StatusCode r <? 600)) with true
    by (symmetry; apply andb_true_iff; split; apply Z.ltb_lt; lia).
  rewrite (wait_after_first_is_30s sleep Hs).
  specialize (IH (S i) (30 * Fetch.Second)).
  destruct (Fetch.retry_loop client request left (S i) (30 * Fetch.Second)) as [res tr].
  simpl in *. rewrite IH.
  - destruct left; reflexivity.
  - unfold Fetch.Second, Fetch.Millisecond. lia.
  - intros k Hk. apply Hall. lia.
Qed.

(** C4. On 503, 503, 503 the waits are 500ms, 30s, 30s, where the documented
    schedule is 500ms, 1s, 2s; and an answer of exactly 500 is followed by no
    wait at all. *)
Theorem backoff_jumps_to_the_cap :
  Fetch.waits (snd (Fetch.doHTTPWithRetry (Fetch.scripted [503; 503; 503]) (Fetch.mkRequest "u") 30))
  = [500 * Fetch.Millisecond; 30 * Fetch.Second; 30 * Fetch.Second]
  /\ List.map Fetch.documented_wait [0; 1; 2]%nat
     = [500 * Fetch.Millisecond; 1 * Fetch.Second; 2 * Fetch.Second]
  /\ Fetch.waits (snd (Fetch.doHTTPWithRetry (Fetch.scripted [500; 500]) (Fetch.mkRequest "u") 30))
     = [].
Proof. repeat split; vm_compute; reflexivity. Qed.

(** ** The outputter *)

Ltac break_match_hyp :=
  match goal with
  | H : context [match ?x with _ => _ end] |- _ => destruct x eqn:?
  end.

Ltac inv_pair :=
  match goal with
  | H : (_, _) = (_, _) |- _ => inversion H; subst; clear H
  | H : inl _ = inl _ |- _ => inversion H; subst; clear H
  | H : inr _ = inr _ |- _ => inversion H; subst; clear H
  | H : Some _ = Some _ |- _ => inversion H; subst; clear H
  end.

Ltac crunch :=
  repeat (try discriminate; try inv_pair; try break_match_hyp);
  try discriminate; simpl in *.

Section OutputterFacts.
Context `{Platform}.

Lemma and_then_ok (m k : Method) (o o' : mbtilesOutputter) :
  and_then m k o = (o', None) ->
  exists o1, m o = (o1, None) /\ k o1 = (o', None).
Proof.
  unfold and_then. destruct (m o) as [o1 [e|]]; [discriminate|].
  intros Hk. exists o1. split; [reflexivity|assumption].
Qed.

Lemma fold_apply_metadata (tx : Tx) :
  forall t, metadata_table (fold_left apply_stmt tx t) = metadata_table t.
Proof.
  induction tx as [|s tx IH]; intros t; simpl; [reflexivity|].
  rewrite IH. destruct s; reflexivity.
Qed.

Lemma has_key_app (name : string) (rows more : list (string * string)) :
  has_key name rows = true -> has_key name (rows ++ more) = true.
Proof.
  unfold has_key. rewrite existsb_app. intros ->. reflexivity.
Qed.

Lemma has_key_last (name value : string) (rows : list (string * string)) :
  has_key name (rows ++ [(name, value)]) = true.
Proof.
  unfold has_key. rewrite existsb_app. simpl. rewrite String.eqb_refl.
  now rewrite orb_true_r.
Qed.

(** *** What each step leaves alone *)

Lemma CreateTiles_frame (o o' : mbtilesOutputter) (r : option error) :
  CreateTiles o = (o', r) ->
  same_settings o o' /\ same_batch o o' /\ same_tiles (db o) (db o')
  /\ metadata_table (tables (db o')) = metadata_table (tables (db o))
  /\ (r = None -> hasTiles o' = true).
Proof.
  unfold CreateTiles, exec_create_script, same_settings, same_batch, same_tiles.
  intros Hc. crunch; repeat split; auto; discriminate.
Qed.

Lemma insert_entries_frame (entries : list (string * string)) :
  forall o o' r,
    insert_entries entries o = (o', r) ->
    same_settings o o' /\ same_batch o o' /\ same_tiles (db o) (db o')
    /\ hasTiles o' = hasTiles o.
Proof.
  induction entries as [|[name value] rest IH]; intros o o' r; simpl.
  - intros Heq. inversion Heq; subst. repeat split.
  - unfold exec_insert_metadata.
    destruct (statement_error (db o) "metadata").
    { intros Heq. inversion Heq; subst. repeat split. }
    destruct (has_key name (metadata_table (tables (db o)))).
    { intros Heq. inversion Heq; subst. repeat split. }
    intros Hrec. apply IH in Hrec.
    unfold same_settings, same_batch, same_tiles in *. simpl in Hrec.
    repeat split; tauto.
Qed.

(** A successful run of the loop leaves every name it was given in the table. *)
Lemma insert_entries_keys (entries : list (string * string)) :
  forall o o',
    insert_entries entries o = (o', None) ->
    (forall name, has_key name (metadata_table (tables (db o))) = true ->
                  has_key name (metadata_table (tables (db o'))) = true)
    /\ (forall name value, In (name, value) entries ->
                           has_key name (metadata_table (tables (db o'))) = true).
Proof.
  induction entries as [|[name value] rest IH]; intros o o'; simpl.
  - intros Heq. inversion Heq; subst. split; [auto|contradiction].
  - unfold exec_insert_metadata.
    destruct (statement_error (db o) "metadata"); [discriminate|].
    destruct (has_key name (metadata_table (tables (db o)))); [discriminate|].
    intros Hrec. apply IH in Hrec. simpl in Hrec. destruct Hrec as [Hold Hnew].
    split.
    + intros n Hn. apply Hold. now apply has_key_app.
    + intros n v [Heq|Hin].
      * inversion Heq; subst. apply Hold. apply has_key_last.
      * eapply Hnew; eassumption.
Qed.

(** A name that is in the table already stops the loop at once. *)
Lemma insert_entries_duplicate (name value : string) (rest : list (string * string))
      (o : mbtilesOutputter) :
  has_key name (metadata_table (tables (db o))) = true ->
  exists e, insert_entries ((name, value) :: rest) o = (o, Some e).
Proof.
  intros Hk. simpl. unfold exec_insert_metadata.
  destruct (statement_error (db o) "metadata"); [eexists; reflexivity|].
  rewrite Hk. eexists; reflexivity.
Qed.

Lemma insert_entries_ready (entries : list (string * string)) (o o' : mbtilesOutputter) :
  entries <> [] ->
  insert_entries entries o = (o', None) ->
  schema (db o') = true /\ fault (db o') = None.
Proof.
  destruct entries as [|[name value] rest]; [congruence|]. intros _. simpl.
  unfold exec_insert_metadata, statement_error.
  destruct (fault (db o)) eqn:Ef; [discriminate|].
  destruct (schema (db o)) eqn:Es; [|discriminate].
  destruct (has_key name (metadata_table (tables (db o)))); [discriminate|].
  intros Hrec.
  assert (Hready : forall entries o o',
             insert_entries entries o = (o', None) ->
             schema (db o) = true -> schema (db o') = true).
  { clear. induction entries as [|[n v] rest IH]; intros o o'; simpl.
    - intros Heq. inversion Heq; subst. auto.
    - unfold exec_insert_metadata.
      destruct (statement_error (db o) "metadata"); [discriminate|].
      destruct (has_key n (metadata_table (tables (db o)))); [discriminate|].
      intros Hrec Hs. eapply IH; [eassumption|]. simpl. assumption. }
  split.
  - eapply Hready; [eassumption|]. reflexivity.
  - apply insert_entries_frame in Hrec. destruct Hrec as (_ & _ & (_ & _ & Hf) & _).
    simpl in Hf. congruence.
Qed.

Lemma begin_if_nil_ok (o o' : mbtilesOutputter) :
  begin_if_nil o = (o', None) ->
  db o' = db o /\ same_settings o o' /\ hasTiles o' = hasTiles o
  /\ batchCount o' = batchCount o
  /\ txn o' <> None
  /\ pending_tables o' = pending_tables o.
Proof.
  unfold begin_if_nil, db_Begin, same_settings, pending_tables.
  destruct (txn o) eqn:Et; intros Hb.
  - inversion Hb; subst o'. rewrite Et. repeat split; congruence.
  - destruct (fault (db o)); [discriminate|]. inversion Hb; subst o'. simpl.
    repeat split; congruence.
Qed.

Lemma txn_Exec_ok (s : Stmt) (o o' : mbtilesOutputter) :
  txn_Exec s o = (o', None) ->
  db o' = db o /\ same_settings o o' /\ hasTiles o' = hasTiles o
  /\ batchCount o' = batchCount o
  /\ txn o' <> None
  /\ schema (db o) = true /\ fault (db o) = None
  /\ pending_tables o' = apply_stmt (pending_tables o) s.
Proof.
  unfold txn_Exec, tx_Exec, statement_error, same_settings, pending_tables.
  intros He. destruct (txn o) as [tx|] eqn:Et; [|discriminate].
  destruct (fault (db o)); [discriminate|].
  destruct (schema (db o)); [|discriminate].
  inversion He; subst. simpl. rewrite fold_left_app. simpl.
  repeat split; congruence.
Qed.

(** The end of [Save]: either the counter has reached a multiple of the batch
    size and the transaction is committed, or the transaction stays open. *)
Lemma count_and_commit_ok (o o' : mbtilesOutputter) :
  count_and_commit o = (o', None) ->
  same_settings o o' /\ hasTiles o' = hasTiles o
  /\ schema (db o') = schema (db o) /\ fault (db o') = fault (db o)
  /\ metadata_table (tables (db o')) = metadata_table (tables (db o))
  /\ pending_tables o' = pending_tables o
  /\ batchSize o <> 0
  /\ ((Z.rem (wrap_int64 (batchCount o + 1)) (batchSize o) = 0
       /\ txn o' = None /\ batchCount o' = 0
       /\ commits (db o') = S (commits (db o)))
      \/ (Z.rem (wrap_int64 (batchCount o + 1)) (batchSize o) <> 0
          /\ txn o' = txn o /\ batchCount o' = wrap_int64 (batchCount o + 1)
          /\ commits (db o') = commits (db o))).
Proof.
  unfold count_and_commit, tx_Commit, same_settings, pending_tables. simpl.
  destruct (Z.eqb_spec (batchSize o) 0) as [|Hbs]; [discriminate|].
  destruct (Z.eqb_spec (Z.rem (wrap_int64 (batchCount o + 1)) (batchSize o)) 0) as [Hrem|Hrem].
  - destruct (txn o) as [tx|] eqn:Et; [|discriminate].
    destruct (fault (db o)) eqn:Ef; [discriminate|].
    intros Heq. inversion Heq; subst. simpl.
    rewrite fold_apply_metadata.
    repeat split; auto; left; repeat split; auto.
  - intros Heq. inversion Heq; subst. simpl.
    repeat split; auto; right; repeat split; auto.
Qed.

(** *** What a [Save] that returns nil has done *)

Lemma Save_ok (tile : Tile) (data : list byte) (o o' : mbtilesOutputter) :
  Save tile data o = (o', None) ->
  same_settings o o' /\ hasTiles o' = true
  /\ schema (db o') = true /\ fault (db o') = None
  /\ (forall name value,
         In (name, value) (metadata_entries (bounds o) (minZoom o) (maxZoom o)) ->
         has_key name (metadata_table (tables (db o'))) = true)
  /\ (exists t,
         pending_tables o'
         = apply_stmt (apply_stmt t (ReplaceImage (md5_hex data) data))
                      (ReplaceMap (tile_Z tile) (tile_X tile) (invertedY tile) (md5_hex data)))
  /\ batchSize o <> 0
  /\ ((Z.rem (wrap_int64 (batchCount o + 1)) (batchSize o) = 0
       /\ txn o' = None /\ batchCount o' = 0
       /\ commits (db o') = S (commits (db o)))
      \/ (Z.rem (wrap_int64 (batchCount o + 1)) (batchSize o) <> 0
          /\ txn o' <> None /\ batchCount o' = wrap_int64 (batchCount o + 1)
          /\ commits (db o') = commits (db o))).
Proof.
  unfold Save. intros Hs.
  apply and_then_ok in Hs. destruct Hs as [o1 [H1 Hs]].
  apply and_then_ok in Hs. destruct Hs as [o2 [H2 Hs]].
  apply and_then_ok in Hs. destruct Hs as [o3 [H3 Hs]].
  apply and_then_ok in Hs. destruct Hs as [o4 [H4 Hs]].
  apply and_then_ok in Hs. destruct Hs as [o5 [H5 H6]].
  apply CreateTiles_frame in H1.
  destruct H1 as (S1 & B1 & T1 & M1 & HT1). specialize (HT1 eq_refl).
  unfold AssignMetadata in H2.
  pose proof (insert_entries_frame _ _ _ _ H2) as (S2 & B2 & T2 & HT2).
  pose proof (insert_entries_keys _ _ _ H2) as [_ K2].
  apply begin_if_nil_ok in H3. destruct H3 as (D3 & S3 & HT3 & C3 & N3 & P3).
  apply txn_Exec_ok in H4. destruct H4 as (D4 & S4 & HT4 & C4 & N4 & Sc4 & F4 & P4).
  apply txn_Exec_ok in H5. destruct H5 as (D5 & S5 & HT5 & C5 & N5 & Sc5 & F5 & P5).
  apply count_and_commit_ok in H6.
  destruct H6 as (S6 & HT6 & Sc6 & F6 & M6 & P6 & Hbs & Hstep).
  unfold same_settings, same_batch in *.
  assert (Hsame : batchSize o5 = batchSize o /\ batchCount o5 = batchCount o
                  /\ commits (db o5) = commits (db o)).
  { repeat split; try (destruct S1, S2, S3, S4, S5; congruence).
    - destruct B1 as (_ & ? & _), B2 as (_ & ? & _). congruence.
    - destruct B1 as (_ & _ & ?), B2 as (_ & _ & ?). congruence. }
  destruct Hsame as (Ebs & Ebc & Ecm).
  split; [|split; [|split; [|split; [|split; [|split; [|split]]]]]].
  - repeat split; destruct S1, S2, S3, S4, S5, S6; intuition congruence.
  - congruence.
  - congruence.
  - congruence.
  - intros name value Hin. rewrite M6, D5, D4, D3.
    apply (K2 name value).
    apply (Permutation_in _ (Permutation_sym (range_order_perm _))).
    destruct S1 as (_ & -> & -> & ->). assumption.
  - exists (pending_tables o3). rewrite P6, P5, P4. reflexivity.
  - congruence.
  - rewrite Ebs, Ebc, Ecm in Hstep.
    destruct Hstep as [(Hr & Ht & Hc & Hm)|(Hr & Ht & Hc & Hm)].
    + left. repeat split; assumption.
    + right. repeat split; try assumption. congruence.
Qed.

Lemma Close_ok (o o' : mbtilesOutputter) :
  Close o = (o', None) ->
  tables (db o') = pending_tables o
  /\ schema (db o') = schema (db o) /\ fault (db o') = None.
Proof.
  unfold Close, tx_Commit, db_Close, pending_tables.
  destruct (txn o) as [tx|]; destruct (fault (db o)) eqn:Ef;
    simpl; rewrite ?Ef; intros Heq; inversion Heq; subst; simpl; auto.
Qed.

End OutputterFacts.

(** ** The tables after INSERT OR REPLACE *)

Lemma filter_none {A : Type} (p : A -> bool) (l : list A) :
  (forall a, In a l -> p a = false) -> filter p l = [].
Proof.
  induction l as [|a l IH]; intros Hall; simpl; [reflexivity|].
  rewrite (Hall a) by (left; reflexivity).
  apply IH. intros b Hb. apply Hall. right. assumption.
Qed.

Lemma filter_after_removal {A : Type} (p : A -> bool) (l : list A) :
  filter p (filter (fun a => negb (p a)) l) = [].
Proof.
  apply filter_none. intros a Ha. apply filter_In in Ha.
  destruct Ha as [_ Hn]. now apply negb_true_iff in Hn.
Qed.

Lemma same_coordinate_refl (z x row : Z) (id : string) :
  same_coordinate z x row (mkMapRow z x row id) = true.
Proof. unfold same_coordinate. simpl. now rewrite !Z.eqb_refl. Qed.

(** After the two statements of [Save], the coordinate has one row in the
    coordinate table and the digest has one row in the content table. *)
Lemma rows_after_replace (t : Tables) (id : string) (data : list byte) (z x row : Z) :
  let t' := apply_stmt (apply_stmt t (ReplaceImage id data)) (ReplaceMap z x row id) in
  filter (same_coordinate z x row) (map_table t') = [mkMapRow z x row id]
  /\ filter (fun r => String.eqb (tile_id r) id) (images_table t') = [mkImageRow data id].
Proof.
  simpl. split.
  - rewrite filter_app, (filter_after_removal (same_coordinate z x row)). simpl.
    now rewrite same_coordinate_refl.
  - rewrite filter_app, (filter_after_removal (fun r => String.eqb (tile_id r) id)). simpl.
    now rewrite String.eqb_refl.
Qed.

(** And the view has one row at the coordinate, with the content just saved. *)
Lemma view_after_replace (t : Tables) (id : string) (data : list byte) (z x row : Z) :
  filter (fun r => (v_zoom_level r =? z) && (v_tile_column r =? x) && (v_tile_row r =? row))
         (tiles_view (apply_stmt (apply_stmt t (ReplaceImage id data)) (ReplaceMap z x row id)))
  = [mkTilesRow z x row data].
Proof.
  unfold tiles_view. simpl map_table. simpl images_table.
  rewrite flat_map_app, filter_app. simpl flat_map at 2.
  rewrite filter_none.
  - rewrite app_nil_r, filter_app.
    rewrite (filter_after_removal (fun r => String.eqb (tile_id r) id)).
    simpl. rewrite String.eqb_refl. simpl. now rewrite !Z.eqb_refl.
  - intros r Hr. apply in_flat_map in Hr. destruct Hr as [m [Hm Hr]].
    apply filter_In in Hm. destruct Hm as [_ Hm]. apply negb_true_iff in Hm.
    apply in_map_iff in Hr. destruct Hr as [i [<- _]]. simpl. exact Hm.
Qed.

Section Claims.
Context `{Platform}.

(** C1. [Save] cannot be repeated: once a [Save] has returned nil, every
    later [Save] on that writer, with the same tile and content or any other,
    returns the error of [AssignMetadata] (the metadata names are in the table
    and are inserted again) and leaves the writer as it was. *)
Theorem Save_again_fails :
  forall (tile : Tile) (data : list byte) (o o1 : mbtilesOutputter)
         (tile' : Tile) (data' : list byte),
    Save tile data o = (o1, None) ->
    exists e, Save tile' data' o1 = (o1, Some e).
Proof.
  intros tile data o o1 tile' data' Hs.
  apply Save_ok in Hs. destruct Hs as (Hset & Hht & _ & _ & Hkeys & _).
  unfold Save, and_then at 1, CreateTiles. rewrite Hht.
  unfold and_then at 1, AssignMetadata.
  destruct Hset as (_ & Eb & Emin & Emax).
  rewrite Eb, Emin, Emax.
  pose proof (range_order_perm (metadata_entries (bounds o) (minZoom o) (maxZoom o))) as Hperm.
  destruct (range_order (metadata_entries (bounds o) (minZoom o) (maxZoom o)))
    as [|[name value] rest] eqn:Eorder.
  - apply Permutation_nil in Hperm. discriminate Hperm.
  - assert (Hin : In (name, value) (metadata_entries (bounds o) (minZoom o) (maxZoom o))).
    { eapply Permutation_in; [exact Hperm|]. left. reflexivity. }
    destruct (insert_entries_duplicate name value rest o1 (Hkeys _ _ Hin)) as [e He].
    rewrite He. exists e. reflexivity.
Qed.

(** One coordinate row and one content row for the tile, once a [Save] that
    returned nil is committed. *)
Lemma Save_leaves_one_row_each (tile : Tile) (data : list byte) (o o1 o2 : mbtilesOutputter) :
  Save tile data o = (o1, None) ->
  Close o1 = (o2, None) ->
  coordinate_rows (db o2) (tile_Z tile) (tile_X tile) (invertedY tile) = 1%nat
  /\ content_rows (db o2) (md5_hex data) = 1%nat.
Proof.
  intros Hs Hc.
  apply Save_ok in Hs. destruct Hs as (_ & _ & _ & _ & _ & [t Ht] & _).
  apply Close_ok in Hc. destruct Hc as (Htab & _ & _).
  unfold coordinate_rows, content_rows. rewrite Htab, Ht.
  destruct (rows_after_replace t (md5_hex data) data (tile_Z tile) (tile_X tile) (invertedY tile))
    as [-> ->].
  split; reflexivity.
Qed.

(** C6, amended. [Save] always stores the inverted row: after a [Save] that
    returned nil and a [Close] that returned nil, the coordinate table has the
    row (Z, X, invertedY, digest) and no other row at that coordinate; for
    Z < 32 and 0 <= Y < 2^Z the stored row is 2^Z - 1 - Y, which differs from
    Y at every zoom but 0. The writer has no setting that turns this off. *)
Theorem Save_stores_inverted_row :
  forall (tile : Tile) (data : list byte) (o o1 o2 : mbtilesOutputter),
    Save tile data o = (o1, None) ->
    Close o1 = (o2, None) ->
    filter (same_coordinate (tile_Z tile) (tile_X tile) (invertedY tile))
           (map_table (tables (db o2)))
    = [mkMapRow (tile_Z tile) (tile_X tile) (invertedY tile) (md5_hex data)]
    /\ (0 <= tile_Z tile < 32 -> 0 <= tile_Y tile < 2 ^ tile_Z tile ->
        invertedY tile = 2 ^ tile_Z tile - 1 - tile_Y tile
        /\ (0 < tile_Z tile -> invertedY tile <> tile_Y tile)).
Proof.
  intros tile data o o1 o2 Hs Hc.
  apply Save_ok in Hs. destruct Hs as (_ & _ & _ & _ & _ & [t Ht] & _).
  apply Close_ok in Hc. destruct Hc as (Htab & _ & _).
  split.
  - rewrite Htab, Ht. apply rows_after_replace.
  - intros Hz Hy. unfold invertedY, pow2_uint32, wrap_uint32.
    destruct (Z.ltb_spec (tile_Z tile) 32) as [_|Hge]; [|lia].
    assert (Hpow : 2 ^ tile_Z tile <= 2 ^ 31) by (apply Z.pow_le_mono_r; lia).
    rewrite Z.mod_small by lia.
    split; [reflexivity|].
    intros Hpos Heq.
    assert (Heven : 2 ^ tile_Z tile = 2 * 2 ^ (tile_Z tile - 1)).
    { rewrite <- Z.pow_succ_r by lia. f_equal. lia. }
    lia.
Qed.

(** C2, amended. After [Save(tile, bytes)] and [Close], both returning nil,
    a reader over the archive returns exactly [bytes] for the tile with the
    inverted row, (Z, X, invertedY). *)
Theorem Save_then_GetTile_inverted :
  forall (tile : Tile) (data : list byte) (o o1 o2 : mbtilesOutputter),
    Save tile data o = (o1, None) ->
    Close o1 = (o2, None) ->
    GetTile (NewMbtilesReaderWithDatabase (db o2))
            (mkTile (tile_Z tile) (tile_X tile) (invertedY tile))
    = (Some (mkTileData (mkTile (tile_Z tile) (tile_X tile) (invertedY tile)) (Some data)),
       None).
Proof.
  intros tile data o o1 o2 Hs Hc.
  apply Save_ok in Hs. destruct Hs as (_ & _ & Hsc & _ & _ & [t Ht] & _).
  apply Close_ok in Hc. destruct Hc as (Htab & Hsc2 & Hf).
  unfold GetTile, NewMbtilesReaderWithDatabase, query_tile_data, statement_error. simpl.
  rewrite Hf, Hsc2, Hsc, Htab, Ht, view_after_replace. reflexivity.
Qed.

End Claims.

Lemma Save_again_fails_witness :
  exists e, Save tile_1_0_0 content_a after_one_save = (after_one_save, Some e).
Proof.
  apply (Save_again_fails tile_1_0_0 content_a sample_outputter after_one_save
                          tile_1_0_0 content_a).
  vm_compute. reflexivity.
Defined.

Lemma Save_stores_inverted_row_witness :
  filter (same_coordinate 1 0 (invertedY tile_1_0_0))
         (map_table (tables (db closed_after_one_save)))
  = [mkMapRow 1 0 (invertedY tile_1_0_0) (md5_hex content_a)]
  /\ (invertedY tile_1_0_0 = 2 ^ 1 - 1 - 0 /\ invertedY tile_1_0_0 <> 0).
Proof.
  assert (Hsave : Save tile_1_0_0 content_a sample_outputter = (after_one_save, None))
    by (vm_compute; reflexivity).
  assert (Hclose : Close after_one_save = (closed_after_one_save, None))
    by (vm_compute; reflexivity).
  destruct (Save_stores_inverted_row tile_1_0_0 content_a sample_outputter
                                     after_one_save closed_after_one_save Hsave Hclose)
    as [Hrow Hinv].
  split; [exact Hrow|].
  assert (Hz : 0 <= tile_Z tile_1_0_0 < 32) by (simpl; lia).
  assert (Hy : 0 <= tile_Y tile_1_0_0 < 2 ^ tile_Z tile_1_0_0) by (simpl; lia).
  destruct (Hinv Hz Hy) as [Heq Hne].
  split; [exact Heq|]. apply Hne. simpl. lia.
Defined.

(** C6, as stated, fails: a writer made by [NewMbtilesOutputter] with nothing
    else configured stores row 1 for the tile (1, 0, 0), not its Y, 0. *)
Lemma default_writer_inverts_row :
  Save tile_1_0_0 content_a sample_outputter = (after_one_save, None)
  /\ Close after_one_save = (closed_after_one_save, None)
  /\ map_table (tables (db closed_after_one_save)) = [mkMapRow 1 0 1 "a"]
  /\ tile_row (mkMapRow 1 0 1 "a") <> tile_Y tile_1_0_0.
Proof.
  repeat split; try (vm_compute; reflexivity).
  simpl. discriminate.
Qed.

Lemma Save_then_GetTile_inverted_witness :
  GetTile (NewMbtilesReaderWithDatabase (db closed_after_one_save))
          (mkTile 1 0 (invertedY tile_1_0_0))
  = (Some (mkTileData (mkTile 1 0 (invertedY tile_1_0_0)) (Some content_a)), None).
Proof.
  apply (Save_then_GetTile_inverted tile_1_0_0 content_a sample_outputter
                                    after_one_save closed_after_one_save).
  - vm_compute. reflexivity.
  - vm_compute. reflexivity.
Defined.

(** C2, as stated, fails: after [Save] of (1, 0, 0) and [Close], both
    returning nil, [GetTile] of (1, 0, 0) finds no content. *)
Lemma round_trip_misses_saved_tile :
  Save tile_1_0_0 content_a sample_outputter = (after_one_save, None)
  /\ Close after_one_save = (closed_after_one_save, None)
  /\ GetTile (NewMbtilesReaderWithDatabase (db closed_after_one_save)) tile_1_0_0
     = (Some (mkTileData tile_1_0_0 None), None).
Proof. repeat split; vm_compute; reflexivity. Qed.

(** ** The batch counter and the transaction *)

Section Batches.
Context `{Platform}.

(** One [Save] that returns nil, from a state in which the invariant holds. *)
Lemma Save_batch_step (tile : Tile) (data : list byte) (o o' : mbtilesOutputter) :
  1 <= batchSize o <= max_int ->
  batch_invariant o ->
  Save tile data o = (o', None) ->
  batch_invariant o' /\ batchSize o' = batchSize o
  /\ ((batchCount o + 1 = batchSize o /\ commits (db o') = S (commits (db o))
       /\ txn o' = None /\ batchCount o' = 0)
      \/ (batchCount o + 1 < batchSize o /\ commits (db o') = commits (db o)
          /\ txn o' <> None /\ batchCount o' = batchCount o + 1)).
Proof.
  intros Hbs [Hrange _] Hs.
  apply Save_ok in Hs.
  destruct Hs as ((Ebs & _) & _ & _ & _ & _ & _ & _ & Hstep).
  assert (Hwrap : wrap_int64 (batchCount o + 1) = batchCount o + 1).
  { unfold wrap_int64, max_int in *. rewrite Z.mod_small; lia. }
  rewrite Hwrap in Hstep. unfold batch_invariant. rewrite Ebs.
  destruct Hstep as [(Hrem & Ht & Hc & Hm)|(Hrem & Ht & Hc & Hm)].
  - assert (batchCount o + 1 = batchSize o) as Hfull.
    { destruct (Z.eq_dec (batchCount o + 1) (batchSize o)) as [|Hne]; [assumption|].
      rewrite Z.rem_small in Hrem by lia. lia. }
    split; [|split; [reflexivity|left; repeat split; assumption]].
    rewrite Ht, Hc. split; [lia|]. split; [congruence|lia].
  - assert (batchCount o + 1 < batchSize o) as Hless.
    { destruct (Z.eq_dec (batchCount o + 1) (batchSize o)) as [Heq|Hne]; [|lia].
      rewrite Heq, Z.rem_same in Hrem by lia. congruence. }
    split; [|split; [reflexivity|right; repeat split; assumption]].
    rewrite Hc. split; [lia|]. split; [lia|intros _; assumption].
Qed.

Lemma SaveAll_invariant (saves : list (Tile * list byte)) :
  forall o o',
    1 <= batchSize o <= max_int ->
    batch_invariant o ->
    SaveAll saves o = Some o' ->
    batch_invariant o'.
Proof.
  induction saves as [|[tile data] rest IH]; intros o o' Hbs Hinv; simpl.
  - intros Heq. inversion Heq; subst. assumption.
  - destruct (Save tile data o) as [o1 [e|]] eqn:Hs; [discriminate|].
    destruct (Save_batch_step _ _ _ _ Hbs Hinv Hs) as (Hinv1 & Ebs & _).
    apply IH; [rewrite Ebs; assumption|assumption].
Qed.

(** C10. For a writer with batchSize >= 1: after any run of [Save] calls that
    all returned nil, begun with batchCount = 0 and txn = nil,
    0 <= batchCount < batchSize holds and txn is not nil exactly when
    batchCount > 0; and a [Save] that returns nil commits exactly when the
    incremented counter equals batchSize, and then leaves txn = nil and
    batchCount = 0, and otherwise leaves the transaction open and the counter
    incremented. (batchSize is a Go int, hence at most [max_int].) *)
Theorem Save_batch_state_machine :
  forall o : mbtilesOutputter,
    1 <= batchSize o <= max_int ->
    (batchCount o = 0 -> txn o = None ->
     forall saves o', SaveAll saves o = Some o' -> batch_invariant o')
    /\ (batch_invariant o ->
        forall tile data o',
          Save tile data o = (o', None) ->
          batch_invariant o'
          /\ ((batchCount o + 1 = batchSize o /\ commits (db o') = S (commits (db o))
               /\ txn o' = None /\ batchCount o' = 0)
              \/ (batchCount o + 1 < batchSize o /\ commits (db o') = commits (db o)
                  /\ txn o' <> None /\ batchCount o' = batchCount o + 1))).
Proof.
  intros o Hbs. split.
  - intros Hc Ht saves o' Hrun.
    apply (SaveAll_invariant saves o o' Hbs); [|assumption].
    unfold batch_invariant. rewrite Hc, Ht. split; [lia|]. split; [congruence|lia].
  - intros Hinv tile data o' Hs.
    destruct (Save_batch_step _ _ _ _ Hbs Hinv Hs) as (Hinv' & _ & Hstep).
    split; assumption.
Qed.

End Batches.

Lemma Save_batch_state_machine_witness :
  batch_invariant after_one_save
  /\ (batch_invariant (fst (Save tile_1_0_0 content_a sample_mid_batch))
      /\ ((batchCount sample_mid_batch + 1 = batchSize sample_mid_batch
           /\ commits (db (fst (Save tile_1_0_0 content_a sample_mid_batch)))
              = S (commits (db sample_mid_batch))
           /\ txn (fst (Save tile_1_0_0 content_a sample_mid_batch)) = None
           /\ batchCount (fst (Save tile_1_0_0 content_a sample_mid_batch)) = 0)
          \/ (batchCount sample_mid_batch + 1 < batchSize sample_mid_batch
              /\ commits (db (fst (Save tile_1_0_0 content_a sample_mid_batch)))
                 = commits (db sample_mid_batch)
              /\ txn (fst (Save tile_1_0_0 content_a sample_mid_batch)) <> None
              /\ batchCount (fst (Save tile_1_0_0 content_a sample_mid_batch))
                 = batchCount sample_mid_batch + 1))).
Proof.
  split.
  - assert (Hbs : 1 <= batchSize sample_outputter <= max_int)
      by (vm_compute; split; discriminate).
    apply (proj1 (Save_batch_state_machine sample_outputter Hbs) eq_refl eq_refl
                 [(tile_1_0_0, content_a)] after_one_save).
    vm_compute. reflexivity.
  - assert (Hbs : 1 <= batchSize sample_mid_batch <= max_int)
      by (vm_compute; split; discriminate).
    assert (Hinv : batch_invariant sample_mid_batch).
    { unfold batch_invariant. simpl. split; [lia|]. split; [lia|discriminate]. }
    apply (proj2 (Save_batch_state_machine sample_mid_batch Hbs) Hinv
                 tile_1_0_0 content_a (fst (Save tile_1_0_0 content_a sample_mid_batch))).
    vm_compute. reflexivity.
Defined.

(** ** The reader *)

(** C8. While the database answers the query, [GetTile] never returns an
    error, and for a tile whose coordinate has no row in the coordinate table
    it returns a [TileData] with nil [Data] and a nil error. An error comes
    back only when the database fails the query. *)
Theorem GetTile_absent_is_no_content :
  forall (o : mbtilesReader) (tile : Tile),
    statement_error (reader_db o) "tiles" = None ->
    (~ coordinate_present (reader_db o) tile ->
     GetTile o tile = (Some (mkTileData tile None), None))
    /\ (exists td, GetTile o tile = (Some td, None) /\ Tile_ td = tile).
Proof.
  intros o tile Hok. unfold GetTile, query_tile_data. rewrite Hok. split.
  - intros Habsent. rewrite filter_none; [reflexivity|].
    intros r Hr. unfold tiles_view in Hr. apply in_flat_map in Hr.
    destruct Hr as [m [Hm Hr]]. apply in_map_iff in Hr. destruct Hr as [i [<- _]]. simpl.
    destruct ((zoom_level m =? tile_Z tile) && (tile_column m =? tile_X tile)
              && (tile_row m =? tile_Y tile)) eqn:E; [|reflexivity].
    exfalso. apply Habsent. exists m. split; assumption.
  - destruct (filter _ (tiles_view (tables (reader_db o)))) as [|r rest].
    + eexists. split; reflexivity.
    + eexists. split; reflexivity.
Qed.

Lemma GetTile_absent_is_no_content_witness :
  GetTile (mkReader two_tile_archive) (mkTile 3 0 1)
  = (Some (mkTileData (mkTile 3 0 1) None), None).
Proof.
  apply (proj1 (GetTile_absent_is_no_content (mkReader two_tile_archive) (mkTile 3 0 1)
                                             eq_refl)).
  intros [r [Hin Hsame]]. simpl in Hin.
  destruct Hin as [<-|[<-|[]]]; discriminate Hsame.
Defined.

(** ** The merge tool *)

Section MergeFacts.
Context `{Platform}.

(** Both zoom variables start at 0 and are only ever replaced by a minimum
    with what an input reports: they stay 0. *)
Lemma read_inputs_zoom_stays_zero (inputs : list Input) :
  forall i a a',
    outputMinZoom a = 0%N -> outputMaxZoom a = 0%N ->
    read_inputs i inputs a = inr a' ->
    outputMinZoom a' = 0%N /\ outputMaxZoom a' = 0%N.
Proof.
  induction inputs as [|input rest IH]; intros i a a' Hmin Hmax; simpl.
  - intros Heq. inversion Heq; subst. split; assumption.
  - destruct (read_input i input a) as [f|a1] eqn:Hone; [discriminate|].
    intros Hrest.
    unfold read_input in Hone.
    destruct (opened input); [discriminate|].
    destruct (Metadata input) as [|metadata]; [discriminate|].
    destruct (Bounds metadata); [discriminate|].
    destruct (MinZoom metadata); [discriminate|].
    destruct (MaxZoom metadata); [discriminate|].
    inversion Hone; subst a1; clear Hone.
    eapply IH; [| |exact Hrest]; simpl.
    + rewrite Hmin. apply N.min_0_l.
    + rewrite Hmax. apply N.min_0_l.
Qed.

Lemma merged_zoom_range_is_zero (inputs : list Input) (r : Z * Z) :
  merged_zoom_range inputs = Some r -> r = (0, 0).
Proof.
  unfold merged_zoom_range.
  destruct (read_inputs 0 inputs initial_aggregate) as [f|a] eqn:Hread; [discriminate|].
  destruct (read_inputs_zoom_stays_zero inputs 0 initial_aggregate a eq_refl eq_refl Hread)
    as [-> ->].
  intros Heq. inversion Heq. reflexivity.
Qed.

(** Whatever [Save] returns, the copy loop goes on: with readers whose
    database answers the query it always reaches its end. *)
Lemma copy_inputs_never_stops_on_Save (readers : list (string * mbtilesReader)) :
  forall o,
    (forall name reader, In (name, reader) readers ->
                         statement_error (reader_db reader) "tiles" = None) ->
    exists o', copy_inputs readers o = inr o'.
Proof.
  induction readers as [|[name reader] rest IH]; intros o Hok; simpl.
  - exists o. reflexivity.
  - unfold VisitAllTiles. rewrite (Hok name reader) by (left; reflexivity).
    apply IH. intros n r Hin. apply (Hok n r). right. assumption.
Qed.

End MergeFacts.

(** C5. Merging one source whose metadata reports the zoom range 3..5 makes a
    destination with minzoom 0 and maxzoom 0, where the minimum and maximum over
    the sources are 3 and 5; merging it with a source that reports 2..7 gives
    0 and 0 again, where they are 2 and 7. *)
Theorem merge_writes_zoom_range_0_0 :
  merged_zoom_range [two_tile_input] = Some (0, 0)
  /\ merged_zoom_range [two_tile_input; other_input] = Some (0, 0)
  /\ exists d, main "out.mbtiles" [two_tile_input] false = inr d
               /\ In ("minzoom", "0") (metadata_table (tables d))
               /\ In ("maxzoom", "0") (metadata_table (tables d)).
Proof.
  split; [vm_compute; reflexivity|]. split; [vm_compute; reflexivity|].
  eexists. split; [vm_compute; reflexivity|].
  split; simpl; tauto.
Qed.

(** C7. Merging a source that holds two tiles: the [Save] of the second tile
    returns an error, [main] drops it and ends as if all had gone well, and
    the destination holds the first tile only. *)
Theorem merge_ignores_failed_Save :
  tiles_view (tables two_tile_archive)
  = [mkTilesRow 3 0 0 content_a; mkTilesRow 5 1 0 content_b]
  /\ snd (Save (mkTile 3 0 0) content_a merge_destination) = None
  /\ snd (Save (mkTile 5 1 0) content_b merge_after_first_tile)
     = Some (ErrMetadataKey "bounds" (ErrUnique "metadata.name"))
  /\ exists d, main "out.mbtiles" [two_tile_input] false = inr d
               /\ map_table (tables d) = [mkMapRow 3 0 7 "a"]
               /\ images_table (tables d) = [mkImageRow content_a "a"].
Proof.
  split; [vm_compute; reflexivity|]. split; [vm_compute; reflexivity|].
  split; [vm_compute; reflexivity|].
  eexists. split; [vm_compute; reflexivity|]. split; reflexivity.
Qed.

(** * Further properties *)

(** ** doHTTPWithRetry: the budget, the outcomes, the waits *)

Section FetchBudget.
Import Fetch.
Variables (client : Client) (request : Request).

Lemma attempts_cons_Do (k : nat) (tr : list Event) :
  attempts (EvDo k :: tr) = S (attempts tr).
Proof. reflexivity. Qed.

Lemma attempts_cons_Sleep (d : Z) (tr : list Event) :
  attempts (EvSleep d :: tr) = attempts tr.
Proof. reflexivity. Qed.

Lemma retry_loop_attempts_le (left : nat) :
  forall i sleep,
    (attempts (snd (retry_loop client request left i sleep)) <= left)%nat.
Proof.
  induction left as [|left IH]; intros i sleep; [unfold attempts; simpl; lia|].
  rewrite retry_loop_unfold.
  destruct (client request i) as [e|r]; [unfold attempts; simpl; lia|].
  destruct (StatusCode r =? 200); [unfold attempts; simpl; lia|].
  destruct ((500 <? StatusCode r) && (StatusCode r <? 600)).
  - match goal with |- context [retry_loop client request left (S i) ?s] =>
      specialize (IH (S i) s); destruct (retry_loop client request left (S i) s) as [res tr] end.
    simpl snd in *. rewrite attempts_cons_Do, attempts_cons_Sleep. lia.
  - specialize (IH (S i) sleep).
    destruct (retry_loop client request left (S i) sleep) as [res tr].
    simpl snd in *. rewrite attempts_cons_Do. lia.
Qed.

(** The loop runs through [k] answers other than 200 and then meets the
    answer of call [i + k]. *)
Lemma retry_loop_skips_non_200 (k : nat) :
  forall left i sleep,
    (k < left)%nat ->
    (forall j, (i <= j < i + k)%nat ->
               exists r, client request j = DoResp r /\ StatusCode r <> 200) ->
    exists sleep' tr0,
      attempts tr0 = k
      /\ forall res tr,
           retry_loop client request (left - k) (i + k) sleep' = (res, tr) ->
           retry_loop client request left i sleep = (res, tr0 ++ tr).
Proof.
  induction k as [|k IH]; intros left i sleep Hk Hall.
  - exists sleep, []. split; [reflexivity|].
    intros res tr. rewrite Nat.sub_0_r, Nat.add_0_r. simpl. auto.
  - destruct left as [|left]; [lia|].
    destruct (Hall i) as [r [Hr Hne]]; [lia|]. apply Z.eqb_neq in Hne.
    assert (Hrest : forall j, (S i <= j < S i + k)%nat ->
                              exists r, client request j = DoResp r /\ StatusCode r <> 200).
    { intros j Hj. apply Hall. lia. }
    destruct ((500 <? StatusCode r) && (StatusCode r <? 600)) eqn:E5.
    + destruct (IH left (S i)
                   (if 30 <? wrap_int64 (sleep * 2) then 30 * Second else wrap_int64 (sleep * 2))
                   ltac:(lia) Hrest) as (sleep' & tr0 & Hn & Hrun).
      exists sleep', (EvDo i :: EvSleep sleep :: tr0). split.
      * rewrite attempts_cons_Do, attempts_cons_Sleep, Hn. reflexivity.
      * intros res tr Hlast. rewrite retry_loop_unfold, Hr, Hne, E5.
        replace (S left - S k)%nat with (left - k)%nat in Hlast by lia.
        replace (i + S k)%nat with (S i + k)%nat in Hlast by lia.
        rewrite (Hrun res tr Hlast). reflexivity.
    + destruct (IH left (S i) sleep ltac:(lia) Hrest) as (sleep' & tr0 & Hn & Hrun).
      exists sleep', (EvDo i :: tr0). split.
      * rewrite attempts_cons_Do, Hn. reflexivity.
      * intros res tr Hlast. rewrite retry_loop_unfold, Hr, Hne, E5.
        replace (S left - S k)%nat with (left - k)%nat in Hlast by lia.
        replace (i + S k)%nat with (S i + k)%nat in Hlast by lia.
        rewrite (Hrun res tr Hlast). reflexivity.
Qed.

Lemma attempts_app (tr1 tr2 : list Event) :
  attempts (tr1 ++ tr2) = (attempts tr1 + attempts tr2)%nat.
Proof. unfold attempts. now rewrite filter_app, length_app. Qed.

(** The waits of a run: none, or the wait the loop was entered with followed
    by waits of 30 seconds. *)
Lemma retry_loop_wait_shape (left : nat) :
  forall i sleep,
    16 <= sleep <= 30 * Second ->
    exists n, waits (snd (retry_loop client request left i sleep)) = []
              \/ waits (snd (retry_loop client request left i sleep))
                 = sleep :: repeat (30 * Second) n.
Proof.
  induction left as [|left IH]; intros i sleep Hs.
  - exists 0%nat. left. reflexivity.
  - rewrite retry_loop_unfold.
    destruct (client request i) as [e|r]; [exists 0%nat; left; reflexivity|].
    destruct (StatusCode r =? 200); [exists 0%nat; left; reflexivity|].
    destruct ((500 <? StatusCode r) && (StatusCode r <? 600)).
    + rewrite (wait_after_first_is_30s sleep Hs).
      destruct (IH (S i) (30 * Second)) as [n Hn].
      { unfold Second, Millisecond. lia. }
      destruct (retry_loop client request left (S i) (30 * Second)) as [res tr].
      simpl snd in *. simpl waits.
      destruct Hn as [->| ->].
      * exists 0%nat. right. reflexivity.
      * exists (S n). right. reflexivity.
    + destruct (IH (S i) sleep Hs) as [n Hn].
      destruct (retry_loop client request left (S i) sleep) as [res tr].
      simpl snd in *. simpl waits. exists n. exact Hn.
Qed.

Lemma retry_loop_no_wait_without_5xx (left : nat) :
  forall i sleep,
    (forall k r, client request k = DoResp r -> ~ (500 < StatusCode r < 600)) ->
    waits (snd (retry_loop client request left i sleep)) = [].
Proof.
  induction left as [|left IH]; intros i sleep Hno; [reflexivity|].
  rewrite retry_loop_unfold.
  destruct (client request i) as [e|r] eqn:Hr; [reflexivity|].
  destruct (StatusCode r =? 200); [reflexivity|].
  replace ((500 <? StatusCode r) && (StatusCode r <? 600)) with false.
  - specialize (IH (S i) sleep Hno).
    destruct (retry_loop client request left (S i) sleep) as [res tr].
    simpl snd in *. simpl. exact IH.
  - symmetry. apply andb_false_iff. specialize (Hno i r Hr).
    destruct (Z.ltb_spec 500 (StatusCode r)); [right|left; reflexivity].
    apply Z.ltb_ge. lia.
Qed.

End FetchBudget.

(** X1. [doHTTPWithRetry] never calls [client.Do] more than [nRetries] times,
    whatever the origin answers. *)
Theorem doHTTPWithRetry_attempts_within_budget :
  forall (client : Fetch.Client) (request : Fetch.Request) (nRetries : Z),
    (Fetch.attempts (snd (Fetch.doHTTPWithRetry client request nRetries))
     <= Z.to_nat nRetries)%nat.
Proof.
  intros. unfold Fetch.doHTTPWithRetry. apply retry_loop_attempts_le.
Qed.

(** X2. When the first [k] answers are responses other than 200 and call
    number [k] (within the budget) is answered 200, that response is returned
    with a nil error after exactly [k + 1] calls. *)
Theorem doHTTPWithRetry_returns_first_200 :
  forall (client : Fetch.Client) (request : Fetch.Request) (nRetries : Z) (k : nat) resp,
    (k < Z.to_nat nRetries)%nat ->
    (forall j, (j < k)%nat ->
               exists r, client request j = Fetch.DoResp r /\ Fetch.StatusCode r <> 200) ->
    client request k = Fetch.DoResp resp ->
    Fetch.StatusCode resp = 200 ->
    exists tr, Fetch.doHTTPWithRetry client request nRetries = ((Some resp, None), tr)
               /\ Fetch.attempts tr = S k.
Proof.
  intros client request nRetries k resp Hk Hall Hresp H200.
  unfold Fetch.doHTTPWithRetry.
  destruct (retry_loop_skips_non_200 client request k (Z.to_nat nRetries) 0
                                     (500 * Fetch.Millisecond) Hk)
    as (sleep' & tr0 & Hn & Hrun).
  { intros j Hj. apply Hall. lia. }
  exists (tr0 ++ [Fetch.EvDo k]). split.
  - apply Hrun. simpl Nat.add.
    destruct (Z.to_nat nRetries - k)%nat as [|left] eqn:El; [lia|].
    rewrite retry_loop_unfold, Hresp.
    apply Z.eqb_eq in H200. rewrite H200. reflexivity.
  - rewrite attempts_app, Hn. unfold Fetch.attempts. simpl. lia.
Qed.

Lemma doHTTPWithRetry_returns_first_200_witness :
  exists tr, Fetch.doHTTPWithRetry (Fetch.scripted [503; 404]) (Fetch.mkRequest "u") 30
             = ((Some (Fetch.mkResponse 200 []), None), tr)
             /\ Fetch.attempts tr = 3%nat.
Proof.
  assert (Hk : (2 < Z.to_nat 30)%nat) by (vm_compute; lia).
  apply (doHTTPWithRetry_returns_first_200
           (Fetch.scripted [503; 404]) (Fetch.mkRequest "u") 30 2 (Fetch.mkResponse 200 []) Hk).
  - intros j Hj. destruct j as [|[|j]]; try lia;
      (eexists; split; [reflexivity|simpl; lia]).
  - reflexivity.
  - reflexivity.
Defined.

(** X3. An error of [client.Do] is final: when the first [k] answers are
    responses other than 200 and call number [k] (within the budget) fails,
    that error is returned, with no response, after exactly [k + 1] calls. *)
Theorem doHTTPWithRetry_transport_error_is_final :
  forall (client : Fetch.Client) (request : Fetch.Request) (nRetries : Z) (k : nat) e,
    (k < Z.to_nat nRetries)%nat ->
    (forall j, (j < k)%nat ->
               exists r, client request j = Fetch.DoResp r /\ Fetch.StatusCode r <> 200) ->
    client request k = Fetch.DoErr e ->
    exists tr, Fetch.doHTTPWithRetry client request nRetries = ((None, Some e), tr)
               /\ Fetch.attempts tr = S k.
Proof.
  intros client request nRetries k e Hk Hall Herr.
  unfold Fetch.doHTTPWithRetry.
  destruct (retry_loop_skips_non_200 client request k (Z.to_nat nRetries) 0
                                     (500 * Fetch.Millisecond) Hk)
    as (sleep' & tr0 & Hn & Hrun).
  { intros j Hj. apply Hall. lia. }
  exists (tr0 ++ [Fetch.EvDo k]). split.
  - apply Hrun. simpl Nat.add.
    destruct (Z.to_nat nRetries - k)%nat as [|left] eqn:El; [lia|].
    rewrite retry_loop_unfold, Herr. reflexivity.
  - rewrite attempts_app, Hn. unfold Fetch.attempts. simpl. lia.
Qed.

Lemma doHTTPWithRetry_transport_error_is_final_witness :
  exists tr,
    Fetch.doHTTPWithRetry
      (fun _ k => match k with
                  | O => Fetch.DoResp (Fetch.mkResponse 503 [])
                  | _ => Fetch.DoErr (ErrTransport "timeout")
                  end)
      (Fetch.mkRequest "u") 30
    = ((None, Some (ErrTransport "timeout")), tr)
    /\ Fetch.attempts tr = 2%nat.
Proof.
  assert (Hk : (1 < Z.to_nat 30)%nat) by (vm_compute; lia).
  apply (doHTTPWithRetry_transport_error_is_final _ (Fetch.mkRequest "u") 30 1
                                                  (ErrTransport "timeout") Hk).
  - intros j Hj. destruct j as [|j]; try lia.
    eexists; split; [reflexivity|simpl; lia].
  - reflexivity.
Defined.

(** X4. Whatever the origin answers, the waits of a run are none at all, or
    500ms followed by waits of 30 seconds each: no wait is longer than 30
    seconds. *)
Theorem doHTTPWithRetry_wait_shape :
  forall (client : Fetch.Client) (request : Fetch.Request) (nRetries : Z),
    exists n,
      Fetch.waits (snd (Fetch.doHTTPWithRetry client request nRetries)) = []
      \/ Fetch.waits (snd (Fetch.doHTTPWithRetry client request nRetries))
         = 500 * Fetch.Millisecond :: repeat (30 * Fetch.Second) n.
Proof.
  intros. unfold Fetch.doHTTPWithRetry. apply retry_loop_wait_shape.
  unfold Fetch.Second, Fetch.Millisecond. lia.
Qed.

(** X5. When every answer within the budget has a status above 500 and below
    600, the function waits after each of its [nRetries] calls, the last one
    included, before it gives up: 500ms once and 30 seconds [nRetries - 1]
    times. *)
Theorem doHTTPWithRetry_waits_after_every_5xx :
  forall (client : Fetch.Client) (request : Fetch.Request) (nRetries : Z),
    1 <= nRetries ->
    (forall k, (k < Z.to_nat nRetries)%nat ->
               exists r, client request k = Fetch.DoResp r
                         /\ 500 < Fetch.StatusCode r < 600) ->
    fst (Fetch.doHTTPWithRetry client request nRetries)
    = (None, Some (ErrOutOfRetries (Fetch.URL request)))
    /\ Fetch.waits (snd (Fetch.doHTTPWithRetry client request nRetries))
       = 500 * Fetch.Millisecond :: repeat (30 * Fetch.Second) (Z.to_nat nRetries - 1).
Proof.
  intros client request nRetries Hn Hall. unfold Fetch.doHTTPWithRetry. split.
  - destruct (retry_loop_all_non_200 client request (Z.to_nat nRetries) 0
                                     (500 * Fetch.Millisecond)) as [tr [Heq _]].
    + intros k Hk. destruct (Hall k) as [r [Hr Hrange]]; [lia|].
      exists r. split; [exact Hr|lia].
    + rewrite Heq. reflexivity.
  - rewrite (retry_loop_waits_on_5xx client request (Z.to_nat nRetries) 0
                                     (500 * Fetch.Millisecond)).
    + destruct (Z.to_nat nRetries) as [|n] eqn:En; [lia|].
      replace (S n - 1)%nat with n by lia. reflexivity.
    + unfold Fetch.Second, Fetch.Millisecond. lia.
    + intros k Hk. apply Hall. lia.
Qed.

Lemma doHTTPWithRetry_waits_after_every_5xx_witness :
  fst (Fetch.doHTTPWithRetry (Fetch.scripted [503; 502]) (Fetch.mkRequest "u") 2)
  = (None, Some (ErrOutOfRetries "u"))
  /\ Fetch.waits (snd (Fetch.doHTTPWithRetry (Fetch.scripted [503; 502]) (Fetch.mkRequest "u") 2))
     = 500 * Fetch.Millisecond :: repeat (30 * Fetch.Second) (Z.to_nat 2 - 1).
Proof.
  assert (Hn : 1 <= 2) by lia.
  apply (doHTTPWithRetry_waits_after_every_5xx
           (Fetch.scripted [503; 502]) (Fetch.mkRequest "u") 2 Hn).
  intros k Hk. destruct k as [|[|k]]; simpl in Hk; try lia;
    (eexists; split; [reflexivity|simpl; lia]).
Defined.

(** X6. When no answer has a status above 500 and below 600, the function
    never waits: every further attempt follows at once. *)
Theorem doHTTPWithRetry_no_wait_without_5xx :
  forall (client : Fetch.Client) (request : Fetch.Request) (nRetries : Z),
    (forall k r, client request k = Fetch.DoResp r -> ~ (500 < Fetch.StatusCode r < 600)) ->
    Fetch.waits (snd (Fetch.doHTTPWithRetry client request nRetries)) = [].
Proof.
  intros. unfold Fetch.doHTTPWithRetry. now apply retry_loop_no_wait_without_5xx.
Qed.

Lemma doHTTPWithRetry_no_wait_without_5xx_witness :
  Fetch.waits (snd (Fetch.doHTTPWithRetry (Fetch.scripted [404; 500; 301]) (Fetch.mkRequest "u") 30))
  = [].
Proof.
  apply (doHTTPWithRetry_no_wait_without_5xx
           (Fetch.scripted [404; 500; 301]) (Fetch.mkRequest "u") 30).
  intros k r Hr. unfold Fetch.scripted in Hr. inversion Hr; subst r. simpl.
  destruct k as [|[|[|k]]]; simpl; try lia. destruct k; simpl; lia.
Defined.

(** ** The outputter: schema, first save, batches, close *)

Section OutputterMore.
Context `{Platform}.

Lemma has_key_false_app (name : string) (rows more : list (string * string)) :
  has_key name rows = false -> has_key name more = false ->
  has_key name (rows ++ more) = false.
Proof. unfold has_key. rewrite existsb_app. intros -> ->. reflexivity. Qed.

(** On a database that answers and has the tables, names that are pairwise
    distinct and not in the table yet are all inserted, in the order given. *)
Lemma insert_entries_fresh (entries : list (string * string)) :
  forall o,
    fault (db o) = None -> schema (db o) = true ->
    NoDup (List.map fst entries) ->
    (forall name, In name (List.map fst entries) ->
                  has_key name (metadata_table (tables (db o))) = false) ->
    insert_entries entries o
    = (set_db o (mkDB true
                      (mkTables (map_table (tables (db o))) (images_table (tables (db o)))
                                (metadata_table (tables (db o)) ++ entries))
                      None (commits (db o))),
       None).
Proof.
  induction entries as [|[name value] rest IH]; intros o Hf Hs Hnd Hnew.
  - simpl. rewrite app_nil_r.
    destruct o as [[sc [m i md] fl cm] tx ht bc bs b mn mx]. simpl in *. subst. reflexivity.
  - simpl. unfold exec_insert_metadata, statement_error. rewrite Hf, Hs.
    rewrite (Hnew name) by (left; reflexivity).
    simpl in Hnd. inversion Hnd as [|? ? Hnotin Hnd']; subst.
    rewrite IH; simpl; auto.
    + rewrite <- app_assoc. reflexivity.
    + intros n Hn. apply has_key_false_app.
      * apply Hnew. right. exact Hn.
      * unfold has_key. simpl. rewrite orb_false_r.
        apply String.eqb_neq. intros ->. contradiction.
Qed.

Lemma metadata_names_distinct (b : Bound) (mn mx : Z) :
  NoDup (List.map fst (range_order (metadata_entries b mn mx))).
Proof.
  apply (Permutation_NoDup
           (Permutation_map fst (Permutation_sym (range_order_perm (metadata_entries b mn mx))))).
  simpl. repeat constructor; simpl; intuition discriminate.
Qed.

(** Once the tables exist, [Save] goes straight to the metadata. *)
Lemma Save_skips_CreateTiles (tile : Tile) (data : list byte) (o o0 : mbtilesOutputter) :
  CreateTiles o = (o0, None) -> Save tile data o = Save tile data o0.
Proof.
  intros Hc. pose proof (CreateTiles_frame _ _ _ Hc) as (_ & _ & _ & _ & Hht).
  specialize (Hht eq_refl).
  unfold Save, and_then at 1. rewrite Hc.
  symmetry. unfold and_then at 1. unfold CreateTiles at 1. rewrite Hht. reflexivity.
Qed.

(** On a writer whose tables exist, whose database answers and whose metadata
    table is empty, with no transaction open, [Save] inserts the metadata,
    opens a transaction, runs its two statements and reaches the counter. *)
Lemma Save_reaches_counter (tile : Tile) (data : list byte) (o : mbtilesOutputter) :
  fault (db o) = None -> schema (db o) = true -> hasTiles o = true ->
  metadata_table (tables (db o)) = [] -> txn o = None ->
  Save tile data o
  = count_and_commit
      (set_txn
         (set_db o (mkDB true
                         (mkTables (map_table (tables (db o))) (images_table (tables (db o)))
                                   (range_order (metadata_entries (bounds o) (minZoom o) (maxZoom o))))
                         None (commits (db o))))
         (Some [ReplaceImage (md5_hex data) data;
                ReplaceMap (tile_Z tile) (tile_X tile) (invertedY tile) (md5_hex data)])).
Proof.
  intros Hf Hs Hht Hmd Htx.
  unfold Save, and_then at 1, CreateTiles. rewrite Hht.
  unfold and_then at 1, AssignMetadata.
  rewrite insert_entries_fresh; auto using metadata_names_distinct.
  - rewrite Hmd. simpl app.
    unfold and_then at 1, begin_if_nil. simpl. rewrite Htx. simpl.
    unfold and_then at 1, txn_Exec. simpl.
    unfold and_then at 1. simpl. reflexivity.
  - intros name _. rewrite Hmd. reflexivity.
Qed.

(** What a step of [Save] does to the committed rows: nothing, or one commit. *)
Lemma and_then_any (m k : Method) (o o' : mbtilesOutputter) (r : option error) :
  and_then m k o = (o', r) ->
  (exists e, m o = (o', Some e) /\ r = Some e)
  \/ (exists o1, m o = (o1, None) /\ k o1 = (o', r)).
Proof.
  unfold and_then. destruct (m o) as [o1 [e|]].
  - intros Heq. inversion Heq; subst. left. exists e. split; reflexivity.
  - intros Hk. right. exists o1. split; [reflexivity|assumption].
Qed.

Lemma begin_if_nil_db (o o' : mbtilesOutputter) (r : option error) :
  begin_if_nil o = (o', r) -> db o' = db o.
Proof.
  unfold begin_if_nil, db_Begin.
  destruct (txn o); [|destruct (fault (db o))]; intros Heq; inversion Heq; reflexivity.
Qed.

Lemma txn_Exec_db (s : Stmt) (o o' : mbtilesOutputter) (r : option error) :
  txn_Exec s o = (o', r) -> db o' = db o.
Proof.
  unfold txn_Exec, tx_Exec.
  destruct (txn o); [destruct (statement_error (db o) _)|];
    intros Heq; inversion Heq; reflexivity.
Qed.

Lemma count_and_commit_db (o o' : mbtilesOutputter) (r : option error) :
  count_and_commit o = (o', r) ->
  db o' = db o \/ commits (db o') = S (commits (db o)).
Proof.
  unfold count_and_commit, tx_Commit. simpl.
  destruct (batchSize o =? 0); [intros Heq; inversion Heq; left; reflexivity|].
  destruct (Z.rem (wrap_int64 (batchCount o + 1)) (batchSize o) =? 0);
    [|intros Heq; inversion Heq; left; reflexivity].
  destruct (txn o); [|intros Heq; inversion Heq; left; reflexivity].
  destruct (fault (db o)); intros Heq; inversion Heq; [left|right]; reflexivity.
Qed.

End OutputterMore.

Section OutputterExtras.
Context `{Platform}.

(** X7. [CreateTiles] can be called again: after a call that returned nil, a
    further call returns nil and changes nothing, and no call ever touches
    the rows or the commits of the archive. *)
Theorem CreateTiles_is_idempotent :
  forall (o o1 : mbtilesOutputter) (r : option error),
    CreateTiles o = (o1, r) ->
    tables (db o1) = tables (db o)
    /\ commits (db o1) = commits (db o)
    /\ (r = None -> CreateTiles o1 = (o1, None)).
Proof.
  intros o o1 r Hc. unfold CreateTiles, exec_create_script in *.
  destruct (hasTiles o) eqn:Eh.
  - inversion Hc; subst. rewrite Eh. auto.
  - destruct (fault (db o)); inversion Hc; subst; simpl; auto.
    repeat split; auto. discriminate.
Qed.

(** X8. The first [Save] of a new writer with a batch size other than 0, on
    a database that answers and has no metadata rows, returns nil; the
    [Close] after it returns nil; and the archive then holds the rows it had,
    the four metadata rows in the order of the map walk, the content under
    its digest and the coordinate row with the inverted row index. *)
Theorem first_Save_writes_metadata_and_tile :
  forall (d : DB) (bs : Z) (b : Bound) (mn mx : Z) (tile : Tile) (data : list byte),
    fault d = None ->
    metadata_table (tables d) = [] ->
    bs <> 0 ->
    exists o1 o2,
      Save tile data (NewMbtilesOutputter d bs b mn mx) = (o1, None)
      /\ Close o1 = (o2, None)
      /\ tables (db o2)
         = apply_stmt
             (apply_stmt
                (mkTables (map_table (tables d)) (images_table (tables d))
                          (range_order (metadata_entries b mn mx)))
                (ReplaceImage (md5_hex data) data))
             (ReplaceMap (tile_Z tile) (tile_X tile) (invertedY tile) (md5_hex data)).
Proof.
  intros d bs b mn mx tile data Hf Hmd Hbs.
  assert (Hc : CreateTiles (NewMbtilesOutputter d bs b mn mx)
               = (mkOutputter (mkDB true (tables d) (fault d) (commits d))
                              None true 0 bs b mn mx, None)).
  { unfold CreateTiles, exec_create_script, NewMbtilesOutputter. simpl. rewrite Hf. reflexivity. }
  rewrite (Save_skips_CreateTiles _ _ _ _ Hc).
  rewrite Save_reaches_counter; simpl; auto.
  unfold count_and_commit, tx_Commit. simpl.
  apply Z.eqb_neq in Hbs. rewrite Hbs.
  destruct (Z.rem (wrap_int64 1) bs =? 0).
  - eexists. eexists. split; [reflexivity|].
    unfold Close, tx_Commit, db_Close. simpl. split; reflexivity.
  - eexists. eexists. split; [reflexivity|].
    unfold Close, tx_Commit, db_Close. simpl. split; reflexivity.
Qed.

(** X9. A writer built with batch size 0, on a database that answers and has
    no metadata rows, panics with an integer division by zero in its first
    [Save]. *)
Theorem Save_with_batch_size_zero_panics :
  forall (d : DB) (b : Bound) (mn mx : Z) (tile : Tile) (data : list byte),
    fault d = None ->
    metadata_table (tables d) = [] ->
    snd (Save tile data (NewMbtilesOutputter d 0 b mn mx)) = Some PanicDivideByZero.
Proof.
  intros d b mn mx tile data Hf Hmd.
  assert (Hc : CreateTiles (NewMbtilesOutputter d 0 b mn mx)
               = (mkOutputter (mkDB true (tables d) (fault d) (commits d))
                              None true 0 0 b mn mx, None)).
  { unfold CreateTiles, exec_create_script, NewMbtilesOutputter. simpl. rewrite Hf. reflexivity. }
  rewrite (Save_skips_CreateTiles _ _ _ _ Hc).
  rewrite Save_reaches_counter; simpl; auto.
Qed.

(** X10. A [Save], whatever it returns, either commits one transaction or
    leaves the committed coordinate and content rows as they were: a reader
    of the archive sees nothing of a batch before its commit. *)
Theorem Save_changes_rows_only_by_commit :
  forall (tile : Tile) (data : list byte) (o o' : mbtilesOutputter) (r : option error),
    Save tile data o = (o', r) ->
    commits (db o') = S (commits (db o))
    \/ (commits (db o') = commits (db o)
        /\ map_table (tables (db o')) = map_table (tables (db o))
        /\ images_table (tables (db o')) = images_table (tables (db o))
        /\ tiles_view (tables (db o')) = tiles_view (tables (db o))).
Proof.
  intros tile data o o' r Hs.
  assert (Hquiet : forall a c : mbtilesOutputter,
             commits (db c) = commits (db a) ->
             map_table (tables (db c)) = map_table (tables (db a)) ->
             images_table (tables (db c)) = images_table (tables (db a)) ->
             commits (db c) = S (commits (db a))
             \/ (commits (db c) = commits (db a)
                 /\ map_table (tables (db c)) = map_table (tables (db a))
                 /\ images_table (tables (db c)) = images_table (tables (db a))
                 /\ tiles_view (tables (db c)) = tiles_view (tables (db a)))).
  { intros a c Hc Hm Hi. right. unfold tiles_view. rewrite Hm, Hi. auto. }
  unfold Save in Hs.
  apply and_then_any in Hs. destruct Hs as [(e & H1 & _)|(o1 & H1 & Hs)].
  { apply CreateTiles_frame in H1. destruct H1 as (_ & (_ & _ & ?) & (? & ? & _) & _).
    apply Hquiet; assumption. }
  apply CreateTiles_frame in H1. destruct H1 as (_ & (_ & _ & C1) & (M1 & I1 & _) & _).
  apply and_then_any in Hs. destruct Hs as [(e & H2 & _)|(o2 & H2 & Hs)].
  { apply insert_entries_frame in H2. destruct H2 as (_ & (_ & _ & ?) & (? & ? & _) & _).
    apply Hquiet; congruence. }
  apply insert_entries_frame in H2. destruct H2 as (_ & (_ & _ & C2) & (M2 & I2 & _) & _).
  apply and_then_any in Hs. destruct Hs as [(e & H3 & _)|(o3 & H3 & Hs)].
  { apply begin_if_nil_db in H3. apply Hquiet; congruence. }
  apply begin_if_nil_db in H3.
  apply and_then_any in Hs. destruct Hs as [(e & H4 & _)|(o4 & H4 & Hs)].
  { apply txn_Exec_db in H4. apply Hquiet; congruence. }
  apply txn_Exec_db in H4.
  apply and_then_any in Hs. destruct Hs as [(e & H5 & _)|(o5 & H5 & Hs)].
  { apply txn_Exec_db in H5. apply Hquiet; congruence. }
  apply txn_Exec_db in H5.
  apply count_and_commit_db in Hs. destruct Hs as [Hsame|Hcommit].
  - apply Hquiet; congruence.
  - left. congruence.
Qed.

(** X11. [Close] on a database that answers returns nil and leaves in the
    archive the rows of the open transaction, with one more commit when a
    transaction was open and none otherwise; on a database that fails it
    returns that failure and the archive is as before. *)
Theorem Close_commits_what_is_pending :
  forall o : mbtilesOutputter,
    (fault (db o) = None ->
     exists o', Close o = (o', None)
                /\ tables (db o') = pending_tables o
                /\ commits (db o')
                   = (commits (db o) + match txn o with Some _ => 1 | None => 0 end)%nat)
    /\ (forall msg, fault (db o) = Some msg ->
                    exists o', Close o = (o', Some (ErrEngine msg)) /\ db o' = db o).
Proof.
  intros o. unfold Close, tx_Commit, db_Close, pending_tables. split.
  - intros Hf. destruct (txn o) as [tx|]; rewrite Hf; simpl; rewrite ?Hf.
    + eexists. split; [reflexivity|]. simpl. split; [reflexivity|lia].
    + eexists. split; [reflexivity|]. simpl. split; [reflexivity|lia].
  - intros msg Hf. destruct (txn o) as [tx|]; rewrite Hf; simpl; rewrite ?Hf;
      eexists; split; reflexivity.
Qed.

(** X12. The row inversion of [Save] is its own inverse on the rows of a
    zoom level: for Z < 32 and 0 <= Y < 2^Z the inverted row is again in
    [0, 2^Z), and inverting it gives Y back. *)
Theorem invertedY_is_an_involution :
  forall tile : Tile,
    0 <= tile_Z tile < 32 ->
    0 <= tile_Y tile < 2 ^ tile_Z tile ->
    0 <= invertedY tile < 2 ^ tile_Z tile
    /\ invertedY (mkTile (tile_Z tile) (tile_X tile) (invertedY tile)) = tile_Y tile.
Proof.
  intros tile Hz Hy. unfold invertedY, pow2_uint32, wrap_uint32. simpl.
  destruct (Z.ltb_spec (tile_Z tile) 32) as [_|Hge]; [|lia].
  assert (Hpow : 2 ^ tile_Z tile <= 2 ^ 31) by (apply Z.pow_le_mono_r; lia).
  rewrite (Z.mod_small (2 ^ tile_Z tile - 1 - tile_Y tile)) by lia.
  rewrite Z.mod_small by lia. lia.
Qed.

End OutputterExtras.

Lemma CreateTiles_is_idempotent_witness :
  tables (db merge_destination)
  = tables (db (@NewMbtilesOutputter sample_platform new_db 1000 world 0 0))
  /\ commits (db merge_destination)
     = commits (db (@NewMbtilesOutputter sample_platform new_db 1000 world 0 0))
  /\ (@None error = None -> CreateTiles merge_destination = (merge_destination, None)).
Proof.
  apply (CreateTiles_is_idempotent (@NewMbtilesOutputter sample_platform new_db 1000 world 0 0)
                                   merge_destination None).
  vm_compute. reflexivity.
Defined.

Lemma first_Save_writes_metadata_and_tile_witness :
  exists o1 o2,
    Save tile_1_0_0 content_a sample_outputter = (o1, None)
    /\ Close o1 = (o2, None)
    /\ tables (db o2)
       = apply_stmt
           (apply_stmt
              (mkTables (map_table (tables new_db)) (images_table (tables new_db))
                        (range_order (@metadata_entries sample_platform world 0 1)))
              (ReplaceImage (md5_hex content_a) content_a))
           (ReplaceMap (tile_Z tile_1_0_0) (tile_X tile_1_0_0) (invertedY tile_1_0_0)
                       (md5_hex content_a)).
Proof.
  apply (@first_Save_writes_metadata_and_tile sample_platform new_db 1000 world 0 1 tile_1_0_0 content_a).
  - reflexivity.
  - reflexivity.
  - lia.
Defined.

Lemma Save_with_batch_size_zero_panics_witness :
  snd (Save tile_1_0_0 content_a (@NewMbtilesOutputter sample_platform new_db 0 world 0 1))
  = Some PanicDivideByZero.
Proof.
  apply (@Save_with_batch_size_zero_panics sample_platform new_db world 0 1 tile_1_0_0 content_a).
  - reflexivity.
  - reflexivity.
Defined.

Lemma Save_changes_rows_only_by_commit_witness :
  commits (db after_one_save) = S (commits (db sample_outputter))
  \/ (commits (db after_one_save) = commits (db sample_outputter)
      /\ map_table (tables (db after_one_save)) = map_table (tables (db sample_outputter))
      /\ images_table (tables (db after_one_save)) = images_table (tables (db sample_outputter))
      /\ tiles_view (tables (db after_one_save)) = tiles_view (tables (db sample_outputter))).
Proof.
  apply (Save_changes_rows_only_by_commit tile_1_0_0 content_a sample_outputter
                                          after_one_save None).
  vm_compute. reflexivity.
Defined.

Lemma Close_commits_what_is_pending_witness :
  exists o', Close after_one_save = (o', None)
             /\ tables (db o') = pending_tables after_one_save
             /\ commits (db o')
                = (commits (db after_one_save)
                   + match txn after_one_save with Some _ => 1 | None => 0 end)%nat.
Proof.
  apply (proj1 (Close_commits_what_is_pending after_one_save)).
  vm_compute. reflexivity.
Defined.

Lemma invertedY_is_an_involution_witness :
  0 <= invertedY (mkTile 3 5 2) < 2 ^ 3
  /\ invertedY (mkTile 3 5 (invertedY (mkTile 3 5 2))) = 2.
Proof.
  apply (invertedY_is_an_involution (mkTile 3 5 2)); simpl; lia.
Defined.

(** ** The reader: zoom range and the streaming pass *)

Lemma fold_min_spec (l : list Z) :
  forall z,
    fold_left Z.min l z <= z
    /\ (forall x, In x l -> fold_left Z.min l z <= x)
    /\ (fold_left Z.min l z = z \/ In (fold_left Z.min l z) l).
Proof.
  induction l as [|a l IH]; intros z; simpl.
  - split; [lia|]. split; [contradiction|left; reflexivity].
  - destruct (IH (Z.min z a)) as (Hle & Hall & Hin).
    split; [lia|]. split.
    + intros x [<-|Hx]; [lia|]. apply Hall. exact Hx.
    + destruct Hin as [Heq|Hin]; [|right; right; exact Hin].
      rewrite Heq. destruct (Z.min_spec z a) as [[_ ->]|[_ ->]]; [left|right; left]; reflexivity.
Qed.

Lemma fold_max_spec (l : list Z) :
  forall z,
    z <= fold_left Z.max l z
    /\ (forall x, In x l -> x <= fold_left Z.max l z)
    /\ (fold_left Z.max l z = z \/ In (fold_left Z.max l z) l).
Proof.
  induction l as [|a l IH]; intros z; simpl.
  - split; [lia|]. split; [contradiction|left; reflexivity].
  - destruct (IH (Z.max z a)) as (Hle & Hall & Hin).
    split; [lia|]. split.
    + intros x [<-|Hx]; [lia|]. apply Hall. exact Hx.
    + destruct Hin as [Heq|Hin]; [|right; right; exact Hin].
      rewrite Heq. destruct (Z.max_spec z a) as [[_ ->]|[_ ->]]; [right; left|left]; reflexivity.
Qed.

Lemma sql_min_spec (l : list Z) (m : Z) :
  sql_min l = Some m -> In m l /\ forall x, In x l -> m <= x.
Proof.
  destruct l as [|z rest]; [discriminate|]. simpl. intros [= <-].
  destruct (fold_min_spec rest z) as (Hle & Hall & Hin). split.
  - destruct Hin as [->|Hin]; [left; reflexivity|right; exact Hin].
  - intros x [<-|Hx]; [exact Hle|apply Hall; exact Hx].
Qed.

Lemma sql_max_spec (l : list Z) (m : Z) :
  sql_max l = Some m -> In m l /\ forall x, In x l -> x <= m.
Proof.
  destruct l as [|z rest]; [discriminate|]. simpl. intros [= <-].
  destruct (fold_max_spec rest z) as (Hle & Hall & Hin). split.
  - destruct Hin as [->|Hin]; [left; reflexivity|right; exact Hin].
  - intros x [<-|Hx]; [exact Hle|apply Hall; exact Hx].
Qed.

(** X13. The range [GetZoomRange] returns is exact: every tile of the view
    has its zoom between Min and Max, and both are the zoom of a tile. *)
Theorem GetZoomRange_is_exact :
  forall (o : mbtilesReader) (zr : ZoomRange) (err : option error),
    GetZoomRange o = (Some zr, err) ->
    err = None
    /\ (forall r, In r (tiles_view (tables (reader_db o))) ->
                  Min zr <= v_zoom_level r <= Max zr)
    /\ (exists r, In r (tiles_view (tables (reader_db o))) /\ v_zoom_level r = Min zr)
    /\ (exists r, In r (tiles_view (tables (reader_db o))) /\ v_zoom_level r = Max zr).
Proof.
  intros o zr err. unfold GetZoomRange, getMinZoom, getMaxZoom, scan_aggregate.
  destruct (statement_error (reader_db o) "tiles"); [discriminate|].
  destruct (sql_min _) as [mn|] eqn:Emin; [|discriminate].
  destruct (sql_max _) as [mx|] eqn:Emax; [|discriminate].
  intros Heq. inversion Heq; subst. simpl.
  apply sql_min_spec in Emin. apply sql_max_spec in Emax.
  destruct Emin as [Hmin_in Hmin], Emax as [Hmax_in Hmax].
  split; [reflexivity|]. split; [|split].
  - intros r Hr. split; [apply Hmin|apply Hmax]; apply in_map; exact Hr.
  - apply in_map_iff in Hmin_in. destruct Hmin_in as [r [Hz Hr]]. exists r. auto.
  - apply in_map_iff in Hmax_in. destruct Hmax_in as [r [Hz Hr]]. exists r. auto.
Qed.

Lemma GetZoomRange_is_exact_witness :
  @None error = None
  /\ (forall r, In r (tiles_view (tables (reader_db (mkReader two_tile_archive)))) ->
                Min (mkZoomRange 3 5) <= v_zoom_level r <= Max (mkZoomRange 3 5))
  /\ (exists r, In r (tiles_view (tables (reader_db (mkReader two_tile_archive))))
                /\ v_zoom_level r = Min (mkZoomRange 3 5))
  /\ (exists r, In r (tiles_view (tables (reader_db (mkReader two_tile_archive))))
                /\ v_zoom_level r = Max (mkZoomRange 3 5)).
Proof.
  apply (GetZoomRange_is_exact (mkReader two_tile_archive) (mkZoomRange 3 5) None).
  vm_compute. reflexivity.
Defined.

(** X14. While the database answers: on an archive whose view has no tile,
    [GetZoomRange] returns no range but the error of scanning a NULL into an
    int; on an archive with a tile it returns a range. *)
Theorem GetZoomRange_needs_a_tile :
  forall o : mbtilesReader,
    statement_error (reader_db o) "tiles" = None ->
    (tiles_view (tables (reader_db o)) = [] ->
     GetZoomRange o = (None, Some scan_null_into_int))
    /\ (tiles_view (tables (reader_db o)) <> [] ->
        exists zr, GetZoomRange o = (Some zr, None)).
Proof.
  intros o Hok. unfold GetZoomRange, getMinZoom, getMaxZoom, scan_aggregate.
  rewrite Hok. split.
  - intros ->. reflexivity.
  - intros Hne. destruct (tiles_view (tables (reader_db o))) as [|r rest]; [congruence|].
    simpl. eexists. reflexivity.
Qed.

Lemma GetZoomRange_needs_a_tile_witness :
  GetZoomRange (mkReader (mkDB true empty_tables None 0)) = (None, Some scan_null_into_int)
  /\ exists zr, GetZoomRange (mkReader two_tile_archive) = (Some zr, None).
Proof.
  split.
  - apply (proj1 (GetZoomRange_needs_a_tile (mkReader (mkDB true empty_tables None 0)) eq_refl)).
    reflexivity.
  - apply (proj2 (GetZoomRange_needs_a_tile (mkReader two_tile_archive) eq_refl)).
    discriminate.
Defined.

Lemma fold_note_tile (rows : list TilesRow) :
  forall seen,
    fold_left (fun s r => note_tile (mkTile (v_zoom_level r) (v_tile_column r) (v_tile_row r))
                                    (v_tile_data r) s) rows seen
    = seen ++ List.map (fun r => (mkTile (v_zoom_level r) (v_tile_column r) (v_tile_row r),
                                  v_tile_data r)) rows.
Proof.
  induction rows as [|r rows IH]; intros seen; simpl.
  - now rewrite app_nil_r.
  - rewrite IH. unfold note_tile. now rewrite <- app_assoc.
Qed.



Section WriterThenReader.
Context `{Platform}.

(** X16. After a [Save] and a [Close] that both returned nil, a reader of the
    archive is shown the tile by [VisitAllTiles], at the inverted row and
    with the bytes saved, and [GetZoomRange] returns a range that contains
    the zoom of the tile. *)
Theorem saved_tile_is_visited_and_in_range :
  forall (tile : Tile) (data : list byte) (o o1 o2 : mbtilesOutputter),
    Save tile data o = (o1, None) ->
    Close o1 = (o2, None) ->
    In (mkTile (tile_Z tile) (tile_X tile) (invertedY tile), data)
       (fst (VisitAllTiles (NewMbtilesReaderWithDatabase (db o2)) note_tile []))
    /\ exists zr, GetZoomRange (NewMbtilesReaderWithDatabase (db o2)) = (Some zr, None)
                  /\ Min zr <= tile_Z tile <= Max zr.
Proof.
  intros tile data o o1 o2 Hs Hc.
  apply Save_ok in Hs. destruct Hs as (_ & _ & Hsc & _ & _ & [t Ht] & _).
  apply Close_ok in Hc. destruct Hc as (Htab & Hsc2 & Hf).
  assert (Hok : statement_error (db o2) "tiles" = None).
  { unfold statement_error. rewrite Hf, Hsc2, Hsc. reflexivity. }
  assert (Hrow : In (mkTilesRow (tile_Z tile) (tile_X tile) (invertedY tile) data)
                    (tiles_view (tables (db o2)))).
  { pose proof (view_after_replace t (md5_hex data) data
                                   (tile_Z tile) (tile_X tile) (invertedY tile)) as Hv.
    rewrite <- Ht, <- Htab in Hv.
    assert (Hin : In (mkTilesRow (tile_Z tile) (tile_X tile) (invertedY tile) data)
                     [mkTilesRow (tile_Z tile) (tile_X tile) (invertedY tile) data])
      by (left; reflexivity).
    rewrite <- Hv in Hin. apply filter_In in Hin. tauto. }
  split.
  - unfold VisitAllTiles, NewMbtilesReaderWithDatabase. simpl. rewrite Hok. simpl.
    rewrite fold_note_tile. simpl.
    apply in_map_iff. exists (mkTilesRow (tile_Z tile) (tile_X tile) (invertedY tile) data).
    split; [reflexivity|exact Hrow].
  - unfold GetZoomRange, getMinZoom, getMaxZoom, scan_aggregate, NewMbtilesReaderWithDatabase.
    simpl reader_db. rewrite Hok.
    apply (in_map v_zoom_level) in Hrow. simpl in Hrow.
    destruct (sql_min (List.map v_zoom_level (tiles_view (tables (db o2))))) as [mn|] eqn:Emin.
    + destruct (sql_max (List.map v_zoom_level (tiles_view (tables (db o2))))) as [mx|] eqn:Emax.
      * eexists. split; [reflexivity|]. simpl.
        apply sql_min_spec in Emin. apply sql_max_spec in Emax.
        split; [apply Emin|apply Emax]; exact Hrow.
      * destruct (List.map v_zoom_level (tiles_view (tables (db o2)))); [contradiction|discriminate].
    + destruct (List.map v_zoom_level (tiles_view (tables (db o2)))); [contradiction|discriminate].
Qed.

End WriterThenReader.

Lemma saved_tile_is_visited_and_in_range_witness :
  In (mkTile 1 0 (invertedY tile_1_0_0), content_a)
     (fst (VisitAllTiles (NewMbtilesReaderWithDatabase (db closed_after_one_save)) note_tile []))
  /\ exists zr, GetZoomRange (NewMbtilesReaderWithDatabase (db closed_after_one_save))
                = (Some zr, None)
                /\ Min zr <= 1 <= Max zr.
Proof.
  apply (saved_tile_is_visited_and_in_range tile_1_0_0 content_a sample_outputter
                                            after_one_save closed_after_one_save).
  - vm_compute. reflexivity.
  - vm_compute. reflexivity.
Defined.

(** ** processResults *)

Section ProcessResultsFacts.
Context `{Platform}.

(** After a [Save] that returned nil, a further [Save] is turned down by the
    metadata table and changes nothing. *)
Lemma Save_turned_down_after_success (tile : Tile) (data : list byte)
      (o o1 : mbtilesOutputter) :
  Save tile data o = (o1, None) ->
  forall tile' data',
    exists name cause, Save tile' data' o1 = (o1, Some (ErrMetadataKey name cause)).
Proof.
  intros Hs tile' data'.
  apply Save_ok in Hs. destruct Hs as (Hset & Hht & _ & _ & Hkeys & _).
  unfold Save, and_then at 1, CreateTiles. rewrite Hht.
  unfold and_then at 1, AssignMetadata.
  destruct Hset as (_ & Eb & Emin & Emax). rewrite Eb, Emin, Emax.
  pose proof (range_order_perm (metadata_entries (bounds o) (minZoom o) (maxZoom o))) as Hperm.
  destruct (range_order (metadata_entries (bounds o) (minZoom o) (maxZoom o)))
    as [|[name value] rest] eqn:Eorder.
  - apply Permutation_nil in Hperm. discriminate Hperm.
  - assert (Hin : In (name, value) (metadata_entries (bounds o) (minZoom o) (maxZoom o))).
    { eapply Permutation_in; [exact Hperm|]. left. reflexivity. }
    specialize (Hkeys _ _ Hin). simpl. unfold exec_insert_metadata.
    destruct (statement_error (db o1) "metadata") as [e|].
    + exists name, e. reflexivity.
    + rewrite Hkeys. exists name, (ErrUnique "metadata.name"). reflexivity.
Qed.

(** On a processor that turns every [Save] down without a panic and without
    a change, the loop logs one complaint per result. *)
Lemma save_results_all_turned_down (o1 : mbtilesOutputter) :
  (forall tile data, exists name cause,
        Save tile data o1 = (o1, Some (ErrMetadataKey name cause))) ->
  forall results counter,
    exists counter' lines,
      save_results results o1 counter = inr (o1, counter', lines)
      /\ List.length (filter is_CouldntSaveTile lines) = List.length results.
Proof.
  intros Hdown results. induction results as [|result rest IH]; intros counter; simpl.
  - exists counter, []. split; reflexivity.
  - destruct (Hdown (Tile_of result) (Data_of result)) as (name & cause & Hs).
    rewrite Hs. simpl.
    destruct (IH (wrap_int64 (counter + 1))) as (counter' & lines & Hrec & Hn).
    rewrite Hrec. eexists. eexists. split; [reflexivity|].
    simpl. rewrite filter_app, length_app, Hn.
    destruct (Z.rem (wrap_int64 (counter + 1)) saveLogInterval =? 0); reflexivity.
Qed.

(** X17. [processResults] with a new mbtiles writer (batch size other than 0,
    on a database that answers and has no metadata rows) stores the first
    result only: every later [Save] is turned down, one complaint is logged
    for each, and after the [Close] the archive holds the rows of the first
    tile and nothing of the others. *)
Theorem processResults_keeps_first_tile_only :
  forall (d : DB) (bs : Z) (b : Bound) (mn mx : Z)
         (result : TileResponse) (rest : list TileResponse),
    fault d = None ->
    metadata_table (tables d) = [] ->
    bs <> 0 ->
    exists processor lines,
      processResults (result :: rest) (NewMbtilesOutputter d bs b mn mx)
      = inr (processor, lines)
      /\ List.length (filter is_CouldntSaveTile lines) = List.length rest
      /\ tables (db processor)
         = apply_stmt
             (apply_stmt
                (mkTables (map_table (tables d)) (images_table (tables d))
                          (range_order (metadata_entries b mn mx)))
                (ReplaceImage (md5_hex (Data_of result)) (Data_of result)))
             (ReplaceMap (tile_Z (Tile_of result)) (tile_X (Tile_of result))
                         (invertedY (Tile_of result)) (md5_hex (Data_of result))).
Proof.
  intros d bs b mn mx result rest Hf Hmd Hbs.
  assert (Hfirst : exists o1 o2,
             Save (Tile_of result) (Data_of result) (NewMbtilesOutputter d bs b mn mx) = (o1, None)
             /\ Close o1 = (o2, None)
             /\ tables (db o2)
                = apply_stmt
                    (apply_stmt
                       (mkTables (map_table (tables d)) (images_table (tables d))
                                 (range_order (metadata_entries b mn mx)))
                       (ReplaceImage (md5_hex (Data_of result)) (Data_of result)))
                    (ReplaceMap (tile_Z (Tile_of result)) (tile_X (Tile_of result))
                                (invertedY (Tile_of result)) (md5_hex (Data_of result)))).
  { assert (Hc : CreateTiles (NewMbtilesOutputter d bs b mn mx)
                 = (mkOutputter (mkDB true (tables d) (fault d) (commits d))
                                None true 0 bs b mn mx, None)).
    { unfold CreateTiles, exec_create_script, NewMbtilesOutputter. simpl.
      rewrite Hf. reflexivity. }
    rewrite (Save_skips_CreateTiles _ _ _ _ Hc).
    rewrite Save_reaches_counter; simpl; auto.
    unfold count_and_commit, tx_Commit. simpl.
    pose proof Hbs as Hbs'. apply Z.eqb_neq in Hbs'. rewrite Hbs'.
    destruct (Z.rem (wrap_int64 1) bs =? 0);
      (eexists; eexists; split; [reflexivity|];
       unfold Close, tx_Commit, db_Close; simpl; split; reflexivity). }
  destruct Hfirst as (o1 & o2 & Hs & Hc & Htab).
  pose proof (save_results_all_turned_down o1 (Save_turned_down_after_success _ _ _ _ Hs) rest)
    as Hrest.
  unfold processResults. simpl. rewrite Hs. simpl.
  match goal with |- context [save_results rest o1 ?c] =>
    destruct (Hrest c) as (counter' & lines & Hrec & Hn) end.
  rewrite Hrec, Hc.
  eexists. eexists. split; [reflexivity|]. split; [|exact Htab].
  rewrite !filter_app, !length_app, Hn. simpl. lia.
Qed.

End ProcessResultsFacts.

Lemma processResults_keeps_first_tile_only_witness :
  exists processor lines,
    processResults [mkTileResponse tile_1_0_0 content_a; mkTileResponse (mkTile 1 1 0) content_b]
                   sample_outputter
    = inr (processor, lines)
    /\ List.length (filter is_CouldntSaveTile lines)
       = List.length [mkTileResponse (mkTile 1 1 0) content_b]
    /\ tables (db processor)
       = apply_stmt
           (apply_stmt
              (mkTables (map_table (tables new_db)) (images_table (tables new_db))
                        (range_order (@metadata_entries sample_platform world 0 1)))
              (ReplaceImage (md5_hex content_a) content_a))
           (ReplaceMap 1 0 (invertedY tile_1_0_0) (md5_hex content_a)).
Proof.
  apply (@processResults_keeps_first_tile_only sample_platform new_db 1000 world 0 1
           (mkTileResponse tile_1_0_0 content_a) [mkTileResponse (mkTile 1 1 0) content_b]).
  - reflexivity.
  - reflexivity.
  - lia.
Defined.

(** ** The merge tool: which inputs pass, and what is copied *)

Section MergeMore.
Context `{Platform}.

(** One turn of the first loop, with both zoom variables at 0. *)
Lemma read_input_spec (i : nat) (input : Input) (a : Aggregate) :
  outputMinZoom a = 0%N -> outputMaxZoom a = 0%N ->
  match input_bounds input with
  | Some b =>
      read_input i input a
      = inr (mkAggregate (if Nat.eqb i 0 then b else bound_union (outputBounds a) b)
                         0%N 0%N (inputReaders a ++ [input_reader input]))
  | None =>
      exists f, read_input i input a = inl f /\ fatal_path f = Some (inputFilename input)
  end.
Proof.
  intros Hmin Hmax.
  unfold input_bounds, read_input, input_reader, input_database.
  destruct (opened input) as [e|d]; [eexists; split; reflexivity|].
  destruct (Metadata input) as [e|metadata]; [eexists; split; reflexivity|].
  destruct (Bounds metadata) as [e|b]; [eexists; split; reflexivity|].
  destruct (MinZoom metadata) as [e|mn]; [eexists; split; reflexivity|].
  destruct (MaxZoom metadata) as [e|mx]; [eexists; split; reflexivity|].
  rewrite Hmin, Hmax, !N.min_0_l. reflexivity.
Qed.

Lemma read_inputs_later (inputs : list Input) :
  forall i a,
    i <> 0%nat ->
    outputMinZoom a = 0%N -> outputMaxZoom a = 0%N ->
    Forall (fun input => input_bounds input <> None) inputs ->
    read_inputs i inputs a
    = inr (mkAggregate
             (fold_left bound_union (List.map bounds_or_zero inputs) (outputBounds a))
             0%N 0%N (inputReaders a ++ List.map input_reader inputs)).
Proof.
  induction inputs as [|input rest IH]; intros i a Hi Hmin Hmax Hall; simpl.
  - rewrite app_nil_r. destruct a; simpl in *; subst. reflexivity.
  - inversion Hall as [|? ? Hin Hrest]; subst.
    pose proof (read_input_spec i input a Hmin Hmax) as Hone.
    destruct (input_bounds input) as [b|] eqn:Eb; [|congruence].
    assert (Hb : bounds_or_zero input = b) by (unfold bounds_or_zero; now rewrite Eb).
    rewrite Hone, Hb. apply Nat.eqb_neq in Hi. rewrite Hi.
    rewrite IH; simpl; auto. rewrite <- app_assoc. reflexivity.
Qed.

Lemma read_inputs_first (inputs : list Input) :
  Forall (fun input => input_bounds input <> None) inputs ->
  read_inputs 0 inputs initial_aggregate
  = inr (mkAggregate (union_of (List.map bounds_or_zero inputs)) 0%N 0%N
                     (List.map input_reader inputs)).
Proof.
  destruct inputs as [|input rest]; intros Hall; [reflexivity|].
  inversion Hall as [|? ? Hin Hrest]; subst. simpl.
  pose proof (read_input_spec 0 input initial_aggregate eq_refl eq_refl) as Hone.
  destruct (input_bounds input) as [b|] eqn:Eb; [|congruence].
  assert (Hb : bounds_or_zero input = b) by (unfold bounds_or_zero; now rewrite Eb).
  rewrite Hone, Hb. simpl. rewrite read_inputs_later; simpl; auto.
Qed.

(** The first loop ends in a fatal exit exactly on an input without bounds,
    and then names it. *)
Lemma read_inputs_outcome (inputs : list Input) :
  forall i a,
    outputMinZoom a = 0%N -> outputMaxZoom a = 0%N ->
    match read_inputs i inputs a with
    | inr _ => Forall (fun input => input_bounds input <> None) inputs
    | inl f => exists input, In input inputs /\ input_bounds input = None
                             /\ fatal_path f = Some (inputFilename input)
    end.
Proof.
  induction inputs as [|input rest IH]; intros i a Hmin Hmax; simpl.
  - constructor.
  - pose proof (read_input_spec i input a Hmin Hmax) as Hone.
    destruct (input_bounds input) as [b|] eqn:Eb.
    + rewrite Hone.
      match goal with |- context [read_inputs (S i) rest ?a1] =>
        specialize (IH (S i) a1 eq_refl eq_refl);
        destruct (read_inputs (S i) rest a1) as [f|a2] end.
      * destruct IH as (bad & Hin & Hbad & Hp). exists bad. split; [right|]; auto.
      * constructor; [congruence|exact IH].
    + destruct Hone as (f & Hf & Hp). rewrite Hf. exists input. split; [left|]; auto.
Qed.

Lemma copy_inputs_outcome (readers : list (string * mbtilesReader)) :
  forall o,
    match copy_inputs readers o with
    | inr o' =>
        Forall (fun nr => statement_error (reader_db (snd nr)) "tiles" = None) readers
        /\ o' = fold_left visit_row
                          (flat_map (fun nr => tiles_view (tables (reader_db (snd nr)))) readers) o
    | inl f =>
        exists name reader, In (name, reader) readers
                            /\ statement_error (reader_db reader) "tiles" <> None
                            /\ fatal_path f = Some name
    end.
Proof.
  induction readers as [|[name reader] rest IH]; intros o; simpl.
  - split; [constructor|reflexivity].
  - unfold VisitAllTiles.
    destruct (statement_error (reader_db reader) "tiles") as [e|] eqn:Eok.
    + exists name, reader. split; [left; reflexivity|]. split; [congruence|reflexivity].
    + match goal with |- context [copy_inputs rest ?o1] =>
        specialize (IH o1); destruct (copy_inputs rest o1) as [f|o2] eqn:Ecopy end.
      * destruct IH as (n & r & Hin & Hbad & Hp). exists n, r. split; [right|]; auto.
      * destruct IH as [Hall ->]. split; [constructor; assumption|].
        rewrite fold_left_app. reflexivity.
Qed.


End MergeMore.

Section MergeExtras.
Context `{Platform}.

(** X18. [main] of the merge tool returns (leaves an archive at the output
    path) exactly when an output name is given, there is at least one input,
    nothing exists at the output path, and every input opens, gives its
    bounds and zooms, and answers the query of its tiles; what [Save] returns
    plays no part. *)
Theorem merge_main_returns_iff :
  forall (outputFilename : string) (inputs : list Input) (pathExists : bool),
    (exists d, main outputFilename inputs pathExists = inr d)
    <-> (outputFilename <> "" /\ inputs <> [] /\ pathExists = false
         /\ Forall input_ok inputs).
Proof.
  intros outputFilename inputs pathExists. split.
  - intros [d Hmain]. unfold main in Hmain.
    destruct (String.eqb_spec outputFilename "") as [|Hout]; [discriminate|].
    destruct inputs as [|input0 rest0] eqn:Einputs; [discriminate|].
    rewrite <- Einputs in *.
    replace (Nat.eqb (List.length inputs) 0) with false in Hmain
      by (rewrite Einputs; reflexivity).
    destruct pathExists; [discriminate|].
    split; [exact Hout|]. split; [rewrite Einputs; discriminate|]. split; [reflexivity|].
    pose proof (read_inputs_outcome inputs 0 initial_aggregate eq_refl eq_refl) as Hread.
    destruct (read_inputs 0 inputs initial_aggregate) as [f|a] eqn:Eread; [discriminate|].
    rewrite (read_inputs_first inputs Hread) in Eread. inversion Eread; subst a. clear Eread.
    simpl in Hmain.
    match type of Hmain with context [copy_inputs ?rs ?o0] =>
      pose proof (copy_inputs_outcome rs o0) as Hcopy;
      destruct (copy_inputs rs o0) as [f|o'] end; [discriminate|].
    destruct Hcopy as [Hhealthy _].
    rewrite Forall_forall in *. intros input Hin. split; [apply Hread; exact Hin|].
    apply (Hhealthy (input_reader input)). apply in_map. exact Hin.
  - intros (Hout & Hne & -> & Hok). unfold main.
    apply String.eqb_neq in Hout. rewrite Hout.
    destruct inputs as [|input0 rest0] eqn:Einputs; [congruence|].
    rewrite <- Einputs in *.
    replace (Nat.eqb (List.length inputs) 0) with false by (rewrite Einputs; reflexivity).
    rewrite read_inputs_first
      by (eapply Forall_impl; [|exact Hok]; intros input [Hb _]; exact Hb).
    simpl.
    match goal with |- context [copy_inputs ?rs ?o0] =>
      pose proof (copy_inputs_outcome rs o0) as Hcopy;
      destruct (copy_inputs rs o0) as [f|o'] end.
    + exfalso. destruct Hcopy as (name & reader & Hin & Hbad & _).
      apply in_map_iff in Hin. destruct Hin as (input & Heq & Hin).
      unfold input_reader in Heq. inversion Heq; subst.
      rewrite Forall_forall in Hok. destruct (Hok input Hin) as [_ Hgood].
      apply Hbad. exact Hgood.
    + eexists. reflexivity.
Qed.



End MergeExtras.

Lemma merge_main_returns_iff_witness :
  (exists d, main "out.mbtiles" [two_tile_input; other_input] false = inr d)
  /\ ~ (exists d, main "out.mbtiles" [two_tile_input; broken_input] false = inr d).
Proof.
  split.
  - apply (proj2 (merge_main_returns_iff "out.mbtiles" [two_tile_input; other_input] false)).
    split; [discriminate|]. split; [discriminate|]. split; [reflexivity|].
    repeat constructor; discriminate.
  - intros Hd.
    apply (proj1 (merge_main_returns_iff "out.mbtiles" [two_tile_input; broken_input] false))
      in Hd.
    destruct Hd as (_ & _ & _ & Hok).
    inversion Hok as [|? ? _ Hrest]; subst. inversion Hrest as [|? ? [Hb _] _]; subst.
    apply Hb. reflexivity.
Defined.



(** ** The tile server: paths and the handler *)

Section ServeFacts.
Import Serve.
Local Open Scope string_scope.

Lemma strip_prefix_app (p s : string) : strip_prefix p (p ++ s) = Some s.
Proof.
  induction p as [|a p IH]; simpl; [reflexivity|].
  now rewrite Ascii.eqb_refl.
Qed.

Lemma strip_prefix_inv (p : string) :
  forall s rest, strip_prefix p s = Some rest -> s = p ++ rest.
Proof.
  induction p as [|a p IH]; intros s rest; simpl.
  - intros [= ->]. reflexivity.
  - destruct s as [|b s]; [discriminate|].
    destruct (Ascii.eqb_spec a b) as [->|]; [|discriminate].
    intros Hrest. now rewrite (IH _ _ Hrest).
Qed.

Lemma span_digits_inv (s : string) :
  forall ds rest,
    span_digits s = (ds, rest) -> s = ds ++ rest /\ digits_only ds = true.
Proof.
  induction s as [|c s IH]; intros ds rest; simpl.
  - intros [= <- <-]. split; reflexivity.
  - destruct (is_digit c) eqn:Ec.
    + destruct (span_digits s) as [ds' rest'] eqn:Es. intros [= <- <-].
      destruct (IH ds' rest' eq_refl) as [-> Hd]. split; [reflexivity|].
      simpl. now rewrite Ec, Hd.
    + intros [= <- <-]. split; reflexivity.
Qed.

(** A run of digits followed by something that does not start with a digit
    is split where the digits end. *)
Lemma span_digits_app (ds : string) :
  forall rest,
    digits_only ds = true ->
    (rest = "" \/ exists c r, rest = String c r /\ is_digit c = false) ->
    span_digits (ds ++ rest) = (ds, rest).
Proof.
  induction ds as [|c ds IH]; intros rest Hd Hrest; simpl.
  - destruct Hrest as [->|(c & r & -> & Hc)]; [reflexivity|].
    simpl. now rewrite Hc.
  - simpl in Hd. apply andb_true_iff in Hd. destruct Hd as [Hc Hd].
    rewrite Hc, (IH rest Hd Hrest). reflexivity.
Qed.

Lemma digits_then_app (sep ds rest : string) :
  is_number ds = true ->
  (exists c r, sep = String c r /\ is_digit c = false) ->
  digits_then sep (ds ++ sep ++ rest) = Some (ds, rest).
Proof.
  intros Hn (c & r & -> & Hc). unfold is_number in Hn.
  apply andb_true_iff in Hn. destruct Hn as [Hne Hd].
  unfold digits_then. rewrite span_digits_app; auto.
  - destruct ds as [|d ds]; [discriminate Hne|].
    change (String c r ++ rest) with (String c (r ++ rest)).
    change (String c (r ++ rest)) with (String c r ++ rest).
    now rewrite strip_prefix_app.
  - right. exists c, (r ++ rest). split; [reflexivity|exact Hc].
Qed.

Lemma digits_then_inv (sep s ds rest : string) :
  digits_then sep s = Some (ds, rest) ->
  s = ds ++ sep ++ rest /\ is_number ds = true.
Proof.
  unfold digits_then. destruct (span_digits s) as [ds' rest'] eqn:Es.
  apply span_digits_inv in Es. destruct Es as [-> Hd].
  destruct ds' as [|c ds']; [discriminate|].
  destruct (strip_prefix sep rest') as [r|] eqn:Ep; [|discriminate].
  intros [= <- <-]. apply strip_prefix_inv in Ep. subst rest'.
  split; [reflexivity|]. unfold is_number. now rewrite Hd.
Qed.

Lemma uint_digits_only (d : Decimal.uint) :
  digits_only (NilEmpty.string_of_uint d) = true.
Proof. induction d; simpl; auto. Qed.

(** [Itoa] of a number that is not negative: a run of digits with that value. *)
Lemma Itoa_is_number (z : Z) :
  0 <= z ->
  is_number (Itoa z) = true
  /\ NilEmpty.uint_of_string (Itoa z) = Some (match z with
                                              | Zpos p => Pos.to_uint p
                                              | _ => Decimal.zero
                                              end)
  /\ Z.of_uint (match z with Zpos p => Pos.to_uint p | _ => Decimal.zero end) = z.
Proof.
  intros Hz. destruct z as [|p|p]; [| |lia].
  - repeat split.
  - unfold Itoa. simpl Z.to_int. unfold NilZero.string_of_int, NilZero.string_of_uint.
    pose proof (DecimalPos.Unsigned.to_uint_nonnil p) as Hnn.
    destruct (Pos.to_uint p) as [| | | | | | | | | |] eqn:Ep; try congruence;
      rewrite <- Ep;
      (split; [unfold is_number; rewrite uint_digits_only, Ep; reflexivity|]);
      (split; [apply NilEmpty.usu|]);
      unfold Z.of_uint; rewrite DecimalPos.Unsigned.of_to; reflexivity.
Qed.

Lemma ParseUint32_Itoa (z : Z) :
  0 <= z -> ParseUint32 (Itoa z) = Z.min z (2 ^ 32 - 1).
Proof.
  intros Hz. destruct (Itoa_is_number z Hz) as (_ & Hu & Hv).
  unfold ParseUint32. rewrite Hu, Hv.
  destruct (Z.ltb_spec z (2 ^ 32)); lia.
Qed.

Lemma ParseUint32_range (s : string) : 0 <= ParseUint32 s < 2 ^ 32.
Proof.
  unfold ParseUint32. destruct (NilEmpty.uint_of_string s) as [u|]; [|lia].
  assert (0 <= Z.of_uint u) by (unfold Z.of_uint; apply N2Z.is_nonneg).
  destruct (Z.ltb_spec (Z.of_uint u) (2 ^ 32)); lia.
Qed.

Lemma FindStringSubmatch_tile_path (z x y : Z) :
  0 <= z -> 0 <= x -> 0 <= y ->
  FindStringSubmatch (tile_path z x y) = Some (Itoa z, Itoa x, Itoa y).
Proof.
  intros Hz Hx Hy. unfold FindStringSubmatch, tile_path.
  rewrite strip_prefix_app.
  destruct (Itoa_is_number z Hz) as (Nz & _), (Itoa_is_number x Hx) as (Nx & _),
           (Itoa_is_number y Hy) as (Ny & _).
  rewrite (digits_then_app "/" (Itoa z)); auto;
    [|exists "/"%char, ""; split; reflexivity].
  rewrite (digits_then_app "/" (Itoa x)); auto;
    [|exists "/"%char, ""; split; reflexivity].
  replace (Itoa y ++ ".mvt") with (Itoa y ++ ".mvt" ++ "") by reflexivity.
  rewrite (digits_then_app ".mvt" (Itoa y)); auto.
  exists "."%char, "mvt"; split; reflexivity.
Qed.

End ServeFacts.

(** X21. [parseTileFromPath] reads back the path of a tile: for z, x, y that
    are not negative, the path with their decimal forms parses to the tile
    (z, x, y), each number cut down to the largest uint32 when it is above
    it (the range error of [ParseUint] is dropped). *)
Theorem parseTileFromPath_reads_tile_path :
  forall z x y : Z,
    0 <= z -> 0 <= x -> 0 <= y ->
    Serve.parseTileFromPath (Serve.tile_path z x y)
    = Some (mkTile (Z.min z (2 ^ 32 - 1)) (Z.min x (2 ^ 32 - 1)) (Z.min y (2 ^ 32 - 1))).
Proof.
  intros z x y Hz Hx Hy. unfold Serve.parseTileFromPath.
  rewrite FindStringSubmatch_tile_path by assumption.
  now rewrite !ParseUint32_Itoa.
Qed.

Lemma parseTileFromPath_reads_tile_path_witness :
  Serve.parseTileFromPath (Serve.tile_path 12 4000 4294967296)
  = Some (mkTile (Z.min 12 (2 ^ 32 - 1)) (Z.min 4000 (2 ^ 32 - 1))
                 (Z.min 4294967296 (2 ^ 32 - 1))).
Proof.
  apply (parseTileFromPath_reads_tile_path 12 4000 4294967296); lia.
Defined.

(** X22. A path that [parseTileFromPath] accepts is the prefix
    /tilezen/vector/v1/512/all/ followed by three runs of digits separated by
    slashes and the suffix .mvt, with nothing after it; the tile has the
    values of the three runs, each within uint32. *)
Theorem parseTileFromPath_accepts_only_tile_paths :
  forall (url : string) (tile : Tile),
    Serve.parseTileFromPath url = Some tile ->
    exists zs xs ys,
      url = (Serve.tilezen_prefix ++ zs ++ "/" ++ xs ++ "/" ++ ys ++ ".mvt")%string
      /\ Serve.is_number zs = true /\ Serve.is_number xs = true /\ Serve.is_number ys = true
      /\ tile = mkTile (Serve.ParseUint32 zs) (Serve.ParseUint32 xs) (Serve.ParseUint32 ys)
      /\ 0 <= tile_Z tile < 2 ^ 32 /\ 0 <= tile_X tile < 2 ^ 32 /\ 0 <= tile_Y tile < 2 ^ 32.
Proof.
  intros url tile. unfold Serve.parseTileFromPath, Serve.FindStringSubmatch.
  destruct (Serve.strip_prefix Serve.tilezen_prefix url) as [s1|] eqn:E0; [|discriminate].
  destruct (Serve.digits_then "/" s1) as [[zs s2]|] eqn:E1; [|discriminate].
  destruct (Serve.digits_then "/" s2) as [[xs s3]|] eqn:E2; [|discriminate].
  destruct (Serve.digits_then ".mvt" s3) as [[ys [|c s4]]|] eqn:E3; try discriminate.
  intros [= <-].
  apply strip_prefix_inv in E0. apply digits_then_inv in E1, E2, E3.
  destruct E1 as [-> Nz], E2 as [-> Nx], E3 as [-> Ny]. subst url.
  exists zs, xs, ys. simpl tile_Z. simpl tile_X. simpl tile_Y.
  repeat split; auto; apply ParseUint32_range.
Qed.

Lemma parseTileFromPath_accepts_only_tile_paths_witness :
  exists zs xs ys,
    "/tilezen/vector/v1/512/all/3/5/2.mvt"
    = (Serve.tilezen_prefix ++ zs ++ "/" ++ xs ++ "/" ++ ys ++ ".mvt")%string
    /\ Serve.is_number zs = true /\ Serve.is_number xs = true /\ Serve.is_number ys = true
    /\ mkTile 3 5 2 = mkTile (Serve.ParseUint32 zs) (Serve.ParseUint32 xs) (Serve.ParseUint32 ys)
    /\ 0 <= tile_Z (mkTile 3 5 2) < 2 ^ 32 /\ 0 <= tile_X (mkTile 3 5 2) < 2 ^ 32
    /\ 0 <= tile_Y (mkTile 3 5 2) < 2 ^ 32.
Proof.
  apply (parseTileFromPath_accepts_only_tile_paths
           "/tilezen/vector/v1/512/all/3/5/2.mvt" (mkTile 3 5 2)).
  vm_compute. reflexivity.
Defined.

(** How the handler answers, case by case. *)
Lemma TilesHandler_cases (mbtiles : mbtilesReader) (r : Serve.HTTPRequest) :
  match Serve.parseTileFromPath (Serve.Path r) with
  | None => fst (Serve.TilesHandler mbtiles r) = Serve.NotFound
  | Some tile =>
      match GetTile mbtiles tile with
      | (Some (mkTileData _ (Some data)), None) =>
          fst (Serve.TilesHandler mbtiles r)
          = Serve.Written (if Serve.Contains (Serve.AcceptEncoding r) "gzip"
                           then Some "gzip" else None)
                          "application/x-protobuf" data
      | _ => fst (Serve.TilesHandler mbtiles r) = Serve.NotFound
      end
  end.
Proof.
  unfold Serve.TilesHandler.
  destruct (Serve.parseTileFromPath (Serve.Path r)) as [tile|]; [|reflexivity].
  unfold GetTile.
  destruct (query_tile_data _ _ _ _) as [[]|data]; simpl; try reflexivity.
  destruct (Serve.Contains _ _); reflexivity.
Qed.

(** X23. The handler writes a body exactly when the path parses to a tile for
    which [GetTile] returns content, and the body is that content; in every
    other case (bad path, absent tile, failing database) it answers not
    found. The content type is application/x-protobuf, and the encoding is
    declared gzip exactly when the request accepts gzip. *)
Theorem TilesHandler_serves_stored_content :
  forall (mbtiles : mbtilesReader) (r : Serve.HTTPRequest),
    (forall enc ct body,
        fst (Serve.TilesHandler mbtiles r) = Serve.Written enc ct body <->
        exists tile,
          Serve.parseTileFromPath (Serve.Path r) = Some tile
          /\ GetTile mbtiles tile = (Some (mkTileData tile (Some body)), None)
          /\ ct = "application/x-protobuf"
          /\ enc = if Serve.Contains (Serve.AcceptEncoding r) "gzip"
                   then Some "gzip" else None)
    /\ (fst (Serve.TilesHandler mbtiles r) = Serve.NotFound
        \/ exists enc ct body, fst (Serve.TilesHandler mbtiles r) = Serve.Written enc ct body).
Proof.
  intros mbtiles r. pose proof (TilesHandler_cases mbtiles r) as Hcases.
  destruct (Serve.parseTileFromPath (Serve.Path r)) as [tile|] eqn:Ep.
  - unfold GetTile in *.
    destruct (query_tile_data (reader_db mbtiles) (tile_Z tile) (tile_X tile) (tile_Y tile))
      as [err|data] eqn:Eq.
    + assert (Hnf : fst (Serve.TilesHandler mbtiles r) = Serve.NotFound)
        by (destruct err; exact Hcases).
      split; [|left; exact Hnf].
      intros enc ct body. rewrite Hnf. split; [discriminate|].
      intros (tile' & Hp & Hg & _). inversion Hp; subst tile'.
      rewrite Eq in Hg. destruct err; discriminate Hg.
    + split.
      * intros enc ct body. rewrite Hcases. split.
        -- intros [= <- <- <-]. exists tile. rewrite Eq. auto.
        -- intros (tile' & Hp & Hg & -> & ->). inversion Hp; subst tile'.
           rewrite Eq in Hg. inversion Hg; subst. reflexivity.
      * right. eexists. eexists. eexists. exact Hcases.
  - split; [|left; exact Hcases].
    intros enc ct body. rewrite Hcases. split; [discriminate|].
    intros (tile & Habs & _). discriminate.
Qed.

Section ServeAfterSave.
Context `{Platform}.

(** X24. A tile that was saved and committed is served: after a [Save] of a
    tile with zoom and column within uint32 and a [Close], both returning
    nil, the handler over the archive answers the path of (Z, X, inverted
    row) with exactly the bytes saved. *)
Theorem saved_tile_is_served :
  forall (tile : Tile) (data : list byte) (o o1 o2 : mbtilesOutputter) (accept : string),
    0 <= tile_Z tile < 2 ^ 32 ->
    0 <= tile_X tile < 2 ^ 32 ->
    Save tile data o = (o1, None) ->
    Close o1 = (o2, None) ->
    fst (Serve.TilesHandler
           (NewMbtilesReaderWithDatabase (db o2))
           (Serve.mkHTTPRequest
              (Serve.tile_path (tile_Z tile) (tile_X tile) (invertedY tile)) accept))
    = Serve.Written (if Serve.Contains accept "gzip" then Some "gzip" else None)
                    "application/x-protobuf" data.
Proof.
  intros tile data o o1 o2 accept Hz Hx Hs Hc.
  assert (Hy : 0 <= invertedY tile < 2 ^ 32).
  { unfold invertedY, wrap_uint32. apply Z.mod_pos_bound. lia. }
  apply Save_ok in Hs. destruct Hs as (_ & _ & Hsc & _ & _ & [t Ht] & _).
  apply Close_ok in Hc. destruct Hc as (Htab & Hsc2 & Hf).
  pose proof (TilesHandler_cases
                (NewMbtilesReaderWithDatabase (db o2))
                (Serve.mkHTTPRequest
                   (Serve.tile_path (tile_Z tile) (tile_X tile) (invertedY tile)) accept))
    as Hcases.
  simpl Serve.Path in Hcases. simpl Serve.AcceptEncoding in Hcases.
  unfold Serve.parseTileFromPath in Hcases.
  rewrite FindStringSubmatch_tile_path in Hcases by lia.
  rewrite !ParseUint32_Itoa, !Z.min_l in Hcases by lia.
  unfold GetTile, NewMbtilesReaderWithDatabase, query_tile_data, statement_error in Hcases.
  simpl in Hcases.
  rewrite Hf, Hsc2, Hsc, Htab, Ht, view_after_replace in Hcases.
  exact Hcases.
Qed.

End ServeAfterSave.

Lemma saved_tile_is_served_witness :
  fst (Serve.TilesHandler
         (NewMbtilesReaderWithDatabase (db closed_after_one_save))
         (Serve.mkHTTPRequest (Serve.tile_path 1 0 (invertedY tile_1_0_0)) "gzip"))
  = Serve.Written (if Serve.Contains "gzip" "gzip" then Some "gzip" else None)
                  "application/x-protobuf" content_a.
Proof.
  apply (saved_tile_is_served tile_1_0_0 content_a sample_outputter
                              after_one_save closed_after_one_save "gzip").
  - simpl. lia.
  - simpl. lia.
  - vm_compute. reflexivity.
  - vm_compute. reflexivity.
Defined.

(** ** The job made for a tile *)

Lemma Replace_no_brace (x y z : string) (s : string) :
  forall t, Build.no_brace s = true ->
            Build.Replace x y z (s ++ t) = (s ++ Build.Replace x y z t)%string.
Proof.
  induction s as [|a s IH]; intros t Hs; [reflexivity|].
  simpl in Hs. apply andb_true_iff in Hs. destruct Hs as [Ha Hs].
  apply negb_true_iff in Ha.
  change ((String a s ++ t)%string) with (String a (s ++ t)%string).
  cbn [Build.Replace]. rewrite Ha, (IH t Hs). reflexivity.
Qed.

Lemma Replace_plain (x y z : string) (s : string) :
  Build.no_brace s = true -> Build.Replace x y z s = s.
Proof.
  induction s as [|a s IH]; intros Hs; [reflexivity|].
  simpl in Hs. apply andb_true_iff in Hs. destruct Hs as [Ha Hs].
  apply negb_true_iff in Ha. cbn [Build.Replace]. rewrite Ha, (IH Hs). reflexivity.
Qed.

(** X25. The job made for a tile keeps the tile and the gzip flag, and its
    URL is the template with the placeholders replaced by the decimal
    coordinates: for a template made of a text without an opening brace
    followed by {z}/{x}/{y} and a suffix without an opening brace, the URL
    is that text, Z/X/Y in decimal, and the suffix. *)
Theorem consumer_fills_in_the_template :
  forall (base suffix : string) (gzipEnabled : bool) (tile : Tile),
    Build.no_brace base = true ->
    Build.no_brace suffix = true ->
    Build.consumer (base ++ "{z}/{x}/{y}" ++ suffix) gzipEnabled tile
    = Build.mkTileRequest
        tile
        (base ++ Itoa (tile_Z tile) ++ "/" ++ Itoa (tile_X tile) ++ "/"
              ++ Itoa (tile_Y tile) ++ suffix)
        gzipEnabled.
Proof.
  intros base suffix gzipEnabled tile Hb Hs. unfold Build.consumer. f_equal.
  rewrite Replace_no_brace by exact Hb. f_equal.
  change (("{z}/{x}/{y}" ++ suffix)%string)
    with (String "{" (String "z" (String "}" (String "/"
           (String "{" (String "x" (String "}" (String "/"
             (String "{" (String "y" (String "}" suffix))))))))))).
  cbn [Build.Replace Ascii.eqb Bool.eqb].
  rewrite (Replace_plain _ _ _ suffix Hs). reflexivity.
Qed.

Lemma consumer_fills_in_the_template_witness :
  Build.consumer ("https://tile.example.org/all/" ++ "{z}/{x}/{y}" ++ ".mvt") true (mkTile 12 4000 17)
  = Build.mkTileRequest
      (mkTile 12 4000 17)
      ("https://tile.example.org/all/" ++ Itoa 12 ++ "/" ++ Itoa 4000 ++ "/" ++ Itoa 17 ++ ".mvt")
      true.
Proof.
  apply (consumer_fills_in_the_template "https://tile.example.org/all/" ".mvt" true
                                        (mkTile 12 4000 17)).
  - reflexivity.
  - reflexivity.
Defined.

(** ** A writer on an archive that has metadata already *)

Section ExistingArchive.
Context `{Platform}.

(** A name that is in the table already makes the loop fail, at that name or
    before it. *)
Lemma insert_entries_blocked (entries : list (string * string)) :
  forall o name,
    In name (List.map fst entries) ->
    has_key name (metadata_table (tables (db o))) = true ->
    exists o' e, insert_entries entries o = (o', Some e).
Proof.
  induction entries as [|[n v] rest IH]; intros o name Hin Hk; [contradiction|].
  simpl. unfold exec_insert_metadata.
  destruct (statement_error (db o) "metadata"); [eexists; eexists; reflexivity|].
  destruct (has_key n (metadata_table (tables (db o)))) eqn:En;
    [eexists; eexists; reflexivity|].
  apply (IH _ name).
  - destruct Hin as [Heq|Hin]; [|exact Hin]. simpl in Heq. subst n. congruence.
  - simpl. apply has_key_app. exact Hk.
Qed.

(** X26. A writer cannot add to an archive that has one of the metadata names
    bounds, center, minzoom or maxzoom already (an archive this writer made
    before, for one): every [Save] returns an error, commits nothing, and
    leaves the coordinate and content rows and the transaction as they
    were. *)
Theorem Save_refuses_archive_with_metadata :
  forall (o : mbtilesOutputter) (name : string) (tile : Tile) (data : list byte),
    In name ["bounds"; "center"; "minzoom"; "maxzoom"] ->
    has_key name (metadata_table (tables (db o))) = true ->
    exists o' e,
      Save tile data o = (o', Some e)
      /\ map_table (tables (db o')) = map_table (tables (db o))
      /\ images_table (tables (db o')) = images_table (tables (db o))
      /\ commits (db o') = commits (db o)
      /\ txn o' = txn o.
Proof.
  intros o name tile data Hname Hk. unfold Save, and_then at 1.
  destruct (CreateTiles o) as [o1 [e|]] eqn:Hc.
  - apply CreateTiles_frame in Hc.
    destruct Hc as (_ & (Ht & _ & Hcm) & (Hm & Hi & _) & _).
    exists o1, e. auto.
  - apply CreateTiles_frame in Hc.
    destruct Hc as ((_ & Eb & Emin & Emax) & (Ht & _ & Hcm) & (Hm & Hi & _) & Hmd & _).
    unfold and_then at 1, AssignMetadata.
    destruct (insert_entries_blocked
                (range_order (metadata_entries (bounds o1) (minZoom o1) (maxZoom o1)))
                o1 name) as (o2 & e & Hins).
    + apply (Permutation_in _ (Permutation_map fst (Permutation_sym (range_order_perm _)))).
      exact Hname.
    + rewrite Hmd. exact Hk.
    + rewrite Hins. exists o2, e. split; [reflexivity|].
      apply insert_entries_frame in Hins.
      destruct Hins as (_ & (Ht2 & _ & Hcm2) & (Hm2 & Hi2 & _) & _).
      repeat split; congruence.
Qed.

End ExistingArchive.

Lemma Save_refuses_archive_with_metadata_witness :
  exists o' e,
    Save tile_1_0_0 content_b (@NewMbtilesOutputter sample_platform two_tile_archive 1000 world 3 5)
    = (o', Some e)
    /\ map_table (tables (db o')) = map_table (tables two_tile_archive)
    /\ images_table (tables (db o')) = images_table (tables two_tile_archive)
    /\ commits (db o') = commits two_tile_archive
    /\ txn o' = None.
Proof.
  apply (Save_refuses_archive_with_metadata
           (@NewMbtilesOutputter sample_platform two_tile_archive 1000 world 3 5)
           "center" tile_1_0_0 content_b).
  - simpl. tauto.
  - reflexivity.
Defined.
